(** * smart_Home: the command handler of [smart_home.py]

    A shallow embedding of the device classes, [SmartHome.get_status] and
    [handle_command], and the properties of the dispatch engine proved on it.

    Modelling conventions.
    - A Python [str] is a Rocq [string] whose characters are the code points
      U+0000..U+00FF, one [ascii] per code point (so the degree sign is the
      single character 176).  [str.lower], [str.upper] and [str.isdigit]
      are given exactly on that range; code points above it are outside the
      model, so nothing here speaks about a string that holds one (such as
      U+0131 or U+FB00, which [str.upper] maps to "I" and "FF").
    - A parsed command is a Python [dict] with string keys, as [json.loads]
      builds it: a [gmap] from [string] to [pyval], the JSON values null,
      booleans, integers and strings.
    - [home] is mutated in place and [responses] is a local list that only
      grows: both are threaded through a state-and-exception monad, in which
      a raised exception keeps the state reached so far, as in Python.
    - [float(temp_str)] is only reached for strings that pass [isdigit]; on
      a string of ASCII digits it is the nearest double to the integer read.
      Rounding to nearest is monotone and leaves 18 and 30 fixed, so the test
      [18 <= temp_float <= 30] is the same test on the integer itself, which
      is what the model compares.  [int] has CPython's bound on the number
      of digits it converts, at its default of 4300, which the program never
      changes: a longer string makes it raise [ValueError]. *)

From Stdlib Require Import ZArith NArith Ascii String List Lia Bool.
From stdpp Require Import base option list gmap strings pretty.
Import ListNotations.

Local Open Scope Z_scope.
Local Open Scope string_scope.
Local Open Scope list_scope.

(** ** Python strings *)

Definition nl : string := String (ascii_of_N 10) "".
Definition degree : string := String (ascii_of_N 176) "".

Definition in_range (lo hi n : N) : bool := ((lo <=? n) && (n <=? hi))%N.

(** [str.lower] on one code point below 256: A-Z and the accented capitals
    U+00C0..U+00DE except the multiplication sign U+00D7. *)
Definition char_lower (c : ascii) : ascii :=
  let n := N_of_ascii c in
  if in_range 65 90 n || (in_range 192 222 n && negb (n =? 215)%N)
  then ascii_of_N (n + 32) else c.

Definition str_lower (s : string) : string :=
  string_of_list_ascii (map char_lower (list_ascii_of_string s)).

(** [str.upper] on one code point below 256.  The result is a list of code
    points: U+00DF gives "SS", U+00B5 gives U+039C and U+00FF gives U+0178,
    which leave the range. *)
Definition char_upper (c : ascii) : list N :=
  let n := N_of_ascii c in
  if in_range 97 122 n || (in_range 224 254 n && negb (n =? 247)%N)
  then [(n - 32)%N]
  else if (n =? 223)%N then [83%N; 83%N]
  else if (n =? 181)%N then [924%N]
  else if (n =? 255)%N then [376%N]
  else [n].

Definition str_upper (s : string) : list N :=
  concat (map char_upper (list_ascii_of_string s)).

Definition codes (s : string) : list N := map N_of_ascii (list_ascii_of_string s).

(** One character of [str.isdigit]: the decimal digits and the superscript
    digits U+00B2, U+00B3 and U+00B9. *)
Definition char_isdigit (c : ascii) : bool :=
  let n := N_of_ascii c in
  in_range 48 57 n || (n =? 178)%N || (n =? 179)%N || (n =? 185)%N.

Definition char_isdecimal (c : ascii) : bool := in_range 48 57 (N_of_ascii c).

Definition str_isdigit (s : string) : bool :=
  match list_ascii_of_string s with
  | [] => false
  | l => forallb char_isdigit l
  end.

Definition digit_value (c : ascii) : Z := Z.of_N (N_of_ascii c) - 48.

(** [int(s)] on a string of decimal digits. *)
Definition int_of_digits (s : string) : Z :=
  fold_left (fun acc c => 10 * acc + digit_value c) (list_ascii_of_string s) 0.

(** [repr(s)] for a string with no quote, backslash or unprintable
    character, which are the only strings it is applied to. *)
Definition repr_plain (s : string) : string := "'" +:+ s +:+ "'".

(** ** Exceptions *)

Inductive exn : Type :=
  | AttributeError (msg : string)
  | ValueError (msg : string)
  | TypeError (msg : string).

Definition str_exn (e : exn) : string :=
  match e with AttributeError m => m | ValueError m => m | TypeError m => m end.

Inductive result (A : Type) : Type :=
  | Return (a : A)
  | Raise (e : exn).
Arguments Return {A} a.
Arguments Raise {A} e.

(** [float(s)] where [s.isdigit()] holds: the superscript digits are not
    decimal and make it raise. *)
Definition float_of_digits (s : string) : result Z :=
  if forallb char_isdecimal (list_ascii_of_string s)
  then Return (int_of_digits s)
  else Raise (ValueError ("could not convert string to float: " +:+ repr_plain s)).

(** [sys.get_int_max_str_digits()], at its default. *)
Definition int_max_str_digits : Z := 4300.

(** [int(s)] where [float(s)] succeeded, so that [s] is a non-empty string
    of decimal digits: every character counts as a digit, leading zeros
    too, and more digits than the limit raise. *)
Definition int_of_str (s : string) : result Z :=
  let digits := Z.of_nat (String.length s) in
  if (int_max_str_digits <? digits)%Z
  then Raise (ValueError
         ("Exceeds the limit (4300 digits) for integer string conversion: value has "
          +:+ pretty digits
          +:+ " digits; use sys.set_int_max_str_digits() to increase the limit"))
  else Return (int_of_digits s).

(** ** JSON values and dictionaries *)

Inductive pyval : Type :=
  | PNone
  | PBool (b : bool)
  | PInt (z : Z)
  | PStr (s : string).

Definition type_name (v : pyval) : string :=
  match v with
  | PNone => "NoneType" | PBool _ => "bool" | PInt _ => "int" | PStr _ => "str"
  end.

(** Truth value of [not v]. *)
Definition py_not (v : pyval) : bool :=
  match v with
  | PNone => true
  | PBool b => negb b
  | PInt z => (z =? 0)%Z
  | PStr s => String.eqb s ""
  end.

(** [v == "literal"]. *)
Definition py_eq (v : pyval) (lit : string) : bool :=
  match v with PStr s => String.eqb s lit | _ => false end.

Definition no_attribute (v : pyval) (attr : string) : exn :=
  AttributeError ("'" +:+ type_name v +:+ "' object has no attribute '" +:+ attr +:+ "'").

Abbreviation dict := (gmap string pyval).

(** [d.get(k)] and [d.get(k, dflt)]. *)
Definition dict_get (d : dict) (k : string) : pyval := default PNone (d !! k).
Definition dict_get_default (d : dict) (k : string) (dflt : pyval) : pyval :=
  default dflt (d !! k).

(** ** Device classes *)

Inductive FanSpeed : Type := OFF | LOW | MEDIUM | HIGH.

Definition FanSpeed_value (v : FanSpeed) : string :=
  match v with OFF => "off" | LOW => "low" | MEDIUM => "medium" | HIGH => "high" end.

Definition FanSpeed_members : list string := ["OFF"; "LOW"; "MEDIUM"; "HIGH"].

Definition N_list_eqb (a b : list N) : bool := bool_decide (a = b).

(** [FanSpeed[name]]; [None] stands for the [KeyError]. *)
Definition FanSpeed_getitem (name : list N) : option FanSpeed :=
  if N_list_eqb name (codes "OFF") then Some OFF
  else if N_list_eqb name (codes "LOW") then Some LOW
  else if N_list_eqb name (codes "MEDIUM") then Some MEDIUM
  else if N_list_eqb name (codes "HIGH") then Some HIGH
  else None.

Module Light.
Record t : Type := mk { state : bool }.
Definition init : t := {| state := false |}.
End Light.

Module Fan.
Record t : Type := mk { speed : FanSpeed }.
Definition init : t := {| speed := OFF |}.
End Fan.

Module Thermostat.
Record t : Type := mk { temperature : Z; state : bool }.
Definition init : t := {| temperature := 22; state := false |}.
End Thermostat.

Record SmartHome : Type := mkHome {
  light : Light.t;
  fan : Fan.t;
  thermostat : Thermostat.t
}.

(** [SmartHome.__init__] *)
Definition SmartHome_init : SmartHome :=
  {| light := Light.init; fan := Fan.init; thermostat := Thermostat.init |}.

(** [SmartHome.get_status]: a dict literal, kept in insertion order. *)
Definition get_status (self : SmartHome) : list (string * string) :=
  [ ("light", if Light.state (light self) then "ON" else "OFF");
    ("fan", FanSpeed_value (Fan.speed (fan self)));
    ("thermostat",
       pretty (Thermostat.temperature (thermostat self)) +:+ degree +:+ "C ("
       +:+ (if Thermostat.state (thermostat self) then "ON" else "OFF") +:+ ")") ].

(** ** The state-and-exception monad of [handle_command]

    A [World] is what the loop of [handle_command] can see change: the
    [home] object, mutated in place, and the local list [responses]. *)

Record World : Type := mkWorld { home : SmartHome; responses : list string }.

Definition M (A : Type) : Type := World -> result A * World.

Definition ret {A : Type} (a : A) : M A := fun w => (Return a, w).

Definition bind {A B : Type} (m : M A) (k : A -> M B) : M B :=
  fun w =>
    match m w with
    | (Return a, w') => k a w'
    | (Raise e, w') => (Raise e, w')
    end.

Definition raise {A : Type} (e : exn) : M A := fun w => (Raise e, w).

Definition lift {A : Type} (r : result A) : M A := fun w => (r, w).

(** [try: m except Exception as e: h e] *)
Definition try_except (m : M unit) (h : exn -> M unit) : M unit :=
  fun w =>
    match m w with
    | (Return u, w') => (Return u, w')
    | (Raise e, w') => h e w'
    end.

Declare Scope py_scope.
Delimit Scope py_scope with py.
Notation "x <- m ;; k" := (bind m (fun x => k))
  (at level 100, m at next level, right associativity) : py_scope.
Notation "m ;;; k" := (bind m (fun _ => k))
  (at level 100, right associativity) : py_scope.

Definition get_home : M SmartHome := fun w => (Return (home w), w).

Definition set_home (f : SmartHome -> SmartHome) : M unit :=
  fun w => (Return tt, {| home := f (home w); responses := responses w |}).

(** [responses.append(r)] *)
Definition append (r : string) : M unit :=
  fun w => (Return tt, {| home := home w; responses := responses w ++ [r] |}).

(** [home.light.state = b] *)
Definition set_light_state (b : bool) : M unit :=
  set_home (fun h => {| light := {| Light.state := b |};
                        fan := fan h; thermostat := thermostat h |}).

(** [home.fan.speed = v] *)
Definition set_fan_speed (v : FanSpeed) : M unit :=
  set_home (fun h => {| light := light h;
                        fan := {| Fan.speed := v |}; thermostat := thermostat h |}).

(** [home.thermostat.temperature = t] *)
Definition set_thermostat_temperature (t : Z) : M unit :=
  set_home (fun h => {| light := light h; fan := fan h;
                        thermostat := {| Thermostat.temperature := t;
                                         Thermostat.state := Thermostat.state (thermostat h) |} |}).

(** [home.thermostat.state = b] *)
Definition set_thermostat_state (b : bool) : M unit :=
  set_home (fun h => {| light := light h; fan := fan h;
                        thermostat := {| Thermostat.temperature := Thermostat.temperature (thermostat h);
                                         Thermostat.state := b |} |}).

(** [v.lower()]: only a [str] has the method. *)
Definition method_lower (v : pyval) : M string :=
  match v with
  | PStr s => ret (str_lower s)
  | _ => raise (no_attribute v "lower")
  end.

(** [v.isdigit()] *)
Definition method_isdigit (v : pyval) : M bool :=
  match v with
  | PStr s => ret (str_isdigit s)
  | _ => raise (no_attribute v "isdigit")
  end.

(** [float(v)] and [int(v)].  On a [str] they are given for the strings
    that pass [isdigit], the only ones they are called on. *)
Definition py_float (v : pyval) : M Z :=
  match v with
  | PStr s => lift (float_of_digits s)
  | PInt z => ret z
  | PBool b => ret (if b then 1 else 0)%Z
  | PNone => raise (TypeError
      "float() argument must be a string or a real number, not 'NoneType'")
  end.

Definition py_int (v : pyval) : M Z :=
  match v with
  | PStr s => lift (int_of_str s)
  | PInt z => ret z
  | PBool b => ret (if b then 1 else 0)%Z
  | PNone => raise (TypeError
      "int() argument must be a string, a bytes-like object or a real number, not 'NoneType'")
  end.

(** ** [handle_command] *)

(** The text appended for [get_status]: one "key: value" line per entry of
    the status dictionary, joined by newlines. *)
Definition status_text (h : SmartHome) : string :=
  String.concat nl (map (fun kv => fst kv +:+ ": " +:+ snd kv) (get_status h)).

Definition fan_speed_error (speed_str : string) : string :=
  "Error: Invalid fan speed '" +:+ speed_str
  +:+ "'. Valid speeds are: " +:+ String.concat ", " FanSpeed_members.

Local Open Scope py_scope.

(** The statements inside [try:] for one element of [parsed_commands].
    [continue] ends them, so the rest is the [else] of the first test. *)
Definition try_block (parsed : dict) : M unit :=
  let device := dict_get parsed "device" in
  let action := dict_get parsed "action" in
  if py_not device && negb (py_eq action "get_status") then
    append "Error: Could not understand the command."
  else if py_eq action "get_status" then
    h <- get_home ;;
    append (status_text h)
  else if py_eq device "light" then
    if py_eq action "turn_on" then
      set_light_state true ;;; append "Light is now ON"
    else if py_eq action "turn_off" then
      set_light_state false ;;; append "Light is now OFF"
    else ret tt
  else if py_eq device "fan" then
    if py_eq action "set" then
      speed_str <- method_lower (dict_get_default parsed "param" (PStr "")) ;;
      match FanSpeed_getitem (str_upper speed_str) with
      | Some v =>
          set_fan_speed v ;;; append ("Fan speed set to " +:+ speed_str)
      | None =>
          append (fan_speed_error speed_str)
      end
    else if py_eq action "turn_on" then
      set_fan_speed LOW ;;; append "Fan is now ON (set to low)"
    else if py_eq action "turn_off" then
      set_fan_speed OFF ;;; append "Fan is now OFF"
    else ret tt
  else if py_eq device "thermostat" then
    if py_eq action "set" then
      let temp_str := dict_get parsed "param" in
      ok <- match temp_str with
            | PNone => ret false
            | _ => method_isdigit temp_str
            end ;;
      if (ok : bool) then
        temp_float <- py_float temp_str ;;
        if ((18 <=? temp_float) && (temp_float <=? 30))%Z then
          temp <- py_int temp_str ;;
          set_thermostat_temperature temp ;;;
          set_thermostat_state true ;;;
          append ("Thermostat set to " +:+ pretty temp +:+ degree +:+ "C")
        else append "Error: Temperature Out Of Range."
      else append "Error: Invalid temperature value."
    else ret tt
  else ret tt.

(** One iteration of the [for] loop: the [try] with its handler. *)
Definition loop_body (parsed : dict) : M unit :=
  try_except (try_block parsed)
    (fun e => append ("Error processing command: " +:+ str_exn e)).

Fixpoint for_each (parsed_commands : list dict) : M unit :=
  match parsed_commands with
  | [] => ret tt
  | parsed :: rest => loop_body parsed ;;; for_each rest
  end.

(** [handle_command(home, parsed_commands)]: the returned string, or the
    exception that leaves the function, and the [home] object afterwards. *)
Definition handle_command (home : SmartHome) (parsed_commands : list dict)
  : result string * SmartHome :=
  match for_each parsed_commands (mkWorld home []) with
  | (Return _, mkWorld home' responses) => (Return (String.concat nl responses), home')
  | (Raise e, mkWorld home' _) => (Raise e, home')
  end.

(** ** Action requests

    The normalised requests of the specification and the dictionaries that
    stand for them at the boundary of [handle_command]: the shapes that
    [CommandParser.parse_command] returns and that its prompt asks for. *)

Inductive DeviceKind : Type := DevLight | DevFan | DevThermostat.

Definition device_name (d : DeviceKind) : string :=
  match d with
  | DevLight => "light" | DevFan => "fan" | DevThermostat => "thermostat"
  end.

Inductive ActionRequest : Type :=
  | TurnOn (device : DeviceKind)
  | TurnOff (device : DeviceKind)
  | SetParam (device : DeviceKind) (rawParam : string)
  | GetStatus
  | Unrecognized (originalText : string).

Definition encode (r : ActionRequest) : dict :=
  match r with
  | TurnOn d =>
      {[ "action" := PStr "turn_on"; "device" := PStr (device_name d) ]}
  | TurnOff d =>
      {[ "action" := PStr "turn_off"; "device" := PStr (device_name d) ]}
  | SetParam d p =>
      {[ "action" := PStr "set"; "device" := PStr (device_name d); "param" := PStr p ]}
  | GetStatus => {[ "action" := PStr "get_status" ]}
  | Unrecognized t => {[ "action" := PStr "unknown"; "command" := PStr t ]}
  end.

(** [dispatch]: the outcome messages of a batch, one list entry per
    appended response, and the registry afterwards. *)
Definition run (h : SmartHome) (parsed_commands : list dict) : result unit * World :=
  for_each parsed_commands (mkWorld h []).

Definition outcomes (h : SmartHome) (parsed_commands : list dict) : list string :=
  responses (snd (run h parsed_commands)).

Definition final_home (h : SmartHome) (parsed_commands : list dict) : SmartHome :=
  home (snd (run h parsed_commands)).

Definition dispatch (h : SmartHome) (requests : list ActionRequest) : list string :=
  outcomes h (map encode requests).

(** ** One request as a relation

    [handled parsed h h' rs]: processing [parsed] in the registry [h] leaves
    the registry [h'] and appends the responses [rs].  One constructor per
    path through the body of the loop. *)

Definition with_light (h : SmartHome) (b : bool) : SmartHome :=
  {| light := {| Light.state := b |}; fan := fan h; thermostat := thermostat h |}.
Definition with_fan (h : SmartHome) (v : FanSpeed) : SmartHome :=
  {| light := light h; fan := {| Fan.speed := v |}; thermostat := thermostat h |}.
Definition with_thermostat (h : SmartHome) (t : Z) : SmartHome :=
  {| light := light h; fan := fan h;
     thermostat := {| Thermostat.temperature := t; Thermostat.state := true |} |}.

Section Handled.
Variable parsed : dict.
Let device := dict_get parsed "device".
Let action := dict_get parsed "action".

Inductive handled (h : SmartHome) : SmartHome -> list string -> Prop :=
| H_not_understood :
    py_not device = true -> py_eq action "get_status" = false ->
    handled h h ["Error: Could not understand the command."]
| H_status :
    py_eq action "get_status" = true ->
    handled h h [status_text h]
| H_light_on :
    py_eq device "light" = true -> py_eq action "turn_on" = true ->
    handled h (with_light h true) ["Light is now ON"]
| H_light_off :
    py_eq device "light" = true -> py_eq action "turn_off" = true ->
    handled h (with_light h false) ["Light is now OFF"]
| H_fan_set s v :
    py_eq device "fan" = true -> py_eq action "set" = true ->
    dict_get_default parsed "param" (PStr "") = PStr s ->
    FanSpeed_getitem (str_upper (str_lower s)) = Some v ->
    handled h (with_fan h v) ["Fan speed set to " +:+ str_lower s]
| H_fan_invalid s :
    py_eq device "fan" = true -> py_eq action "set" = true ->
    dict_get_default parsed "param" (PStr "") = PStr s ->
    FanSpeed_getitem (str_upper (str_lower s)) = None ->
    handled h h [fan_speed_error (str_lower s)]
| H_fan_on :
    py_eq device "fan" = true -> py_eq action "turn_on" = true ->
    handled h (with_fan h LOW) ["Fan is now ON (set to low)"]
| H_fan_off :
    py_eq device "fan" = true -> py_eq action "turn_off" = true ->
    handled h (with_fan h OFF) ["Fan is now OFF"]
| H_thermostat_set s :
    py_eq device "thermostat" = true -> py_eq action "set" = true ->
    dict_get parsed "param" = PStr s ->
    str_isdigit s = true ->
    forallb char_isdecimal (list_ascii_of_string s) = true ->
    18 <= int_of_digits s <= 30 ->
    Z.of_nat (String.length s) <= int_max_str_digits ->
    handled h (with_thermostat h (int_of_digits s))
      ["Thermostat set to " +:+ pretty (int_of_digits s) +:+ degree +:+ "C"]
| H_thermostat_int_exn s e :
    py_eq device "thermostat" = true -> py_eq action "set" = true ->
    dict_get parsed "param" = PStr s ->
    str_isdigit s = true ->
    forallb char_isdecimal (list_ascii_of_string s) = true ->
    18 <= int_of_digits s <= 30 ->
    int_of_str s = Raise e ->
    handled h h ["Error processing command: " +:+ str_exn e]
| H_thermostat_range s :
    py_eq device "thermostat" = true -> py_eq action "set" = true ->
    dict_get parsed "param" = PStr s ->
    str_isdigit s = true ->
    forallb char_isdecimal (list_ascii_of_string s) = true ->
    ~ 18 <= int_of_digits s <= 30 ->
    handled h h ["Error: Temperature Out Of Range."]
| H_thermostat_invalid :
    py_eq device "thermostat" = true -> py_eq action "set" = true ->
    (dict_get parsed "param" = PNone \/
     exists s, dict_get parsed "param" = PStr s /\ str_isdigit s = false) ->
    handled h h ["Error: Invalid temperature value."]
| H_fan_param_exn v :
    py_eq device "fan" = true -> py_eq action "set" = true ->
    dict_get_default parsed "param" (PStr "") = v ->
    (forall s, v <> PStr s) ->
    handled h h ["Error processing command: " +:+ str_exn (no_attribute v "lower")]
| H_thermostat_param_exn v :
    py_eq device "thermostat" = true -> py_eq action "set" = true ->
    dict_get parsed "param" = v ->
    v <> PNone -> (forall s, v <> PStr s) ->
    handled h h ["Error processing command: " +:+ str_exn (no_attribute v "isdigit")]
| H_thermostat_float_exn s :
    py_eq device "thermostat" = true -> py_eq action "set" = true ->
    dict_get parsed "param" = PStr s ->
    str_isdigit s = true ->
    forallb char_isdecimal (list_ascii_of_string s) = false ->
    handled h h ["Error processing command: could not convert string to float: "
                 +:+ repr_plain s]
| H_silent :
    py_not device = false -> py_eq action "get_status" = false ->
    handled h h [].
End Handled.

(** One iteration, started with an empty [responses]. *)
Definition step (parsed : dict) (h : SmartHome) : SmartHome * list string :=
  let w := snd (loop_body parsed (mkWorld h [])) in (home w, responses w).


(** ** Outcomes

    [handle_command] has no outcome type: an outcome is the response string,
    and a failure is a response that starts with "Error". *)

(** [s.startswith(pre)] *)
Fixpoint startswith (s pre : string) {struct pre} : bool :=
  match pre with
  | EmptyString => true
  | String a pre' =>
      match s with
      | EmptyString => false
      | String b s' => Ascii.eqb a b && startswith s' pre'
      end
  end.

Definition is_error (msg : string) : bool := startswith msg "Error".

(** The failure kinds of the specification, read on the messages of
    [handle_command]: a request with no device is answered by the one
    message "Error: Could not understand the command.", whichever of
    [MalformedRequest] and [UnsupportedAction] the specification calls it;
    the message of the generic [except] clause has no kind. *)
Inductive ErrorKind : Type :=
  MalformedRequest | InvalidParameter | OutOfRange | UnsupportedAction.

Definition has_kind (k : ErrorKind) (msg : string) : bool :=
  match k with
  | MalformedRequest | UnsupportedAction =>
      String.eqb msg "Error: Could not understand the command."
  | InvalidParameter =>
      startswith msg "Error: Invalid fan speed '"
      || String.eqb msg "Error: Invalid temperature value."
  | OutOfRange => String.eqb msg "Error: Temperature Out Of Range."
  end.

(** [needle in hay] *)
Fixpoint contains (needle hay : string) : bool :=
  startswith hay needle
  || match hay with
     | EmptyString => false
     | String _ rest => contains needle rest
     end.

(** Case-insensitive matching as the specification words it: letters A-Z
    are folded to a-z and the result is compared with the four names. *)
Definition ascii_fold (c : ascii) : ascii :=
  let n := N_of_ascii c in
  if in_range 65 90 n then ascii_of_N (n + 32) else c.

Definition fold_case (s : string) : string :=
  string_of_list_ascii (map ascii_fold (list_ascii_of_string s)).

Definition fan_speed_of_name (s : string) : option FanSpeed :=
  let t := fold_case s in
  if String.eqb t "off" then Some OFF
  else if String.eqb t "low" then Some LOW
  else if String.eqb t "medium" then Some MEDIUM
  else if String.eqb t "high" then Some HIGH
  else None.

(** The device/action combinations of the table of the specification. *)
Definition listed (r : ActionRequest) : bool :=
  match r with
  | TurnOn DevThermostat | TurnOff DevThermostat => false
  | SetParam DevLight _ => false
  | _ => true
  end.

(** A request fails when one of its responses is an error. *)
Definition request_fails (h : SmartHome) (c : dict) : bool :=
  existsb is_error (outcomes h [c]).

(** The requests of a batch that did not fail, each judged in the registry
    it was processed in. *)
Fixpoint successful (h : SmartHome) (cmds : list dict) : list dict :=
  match cmds with
  | [] => []
  | c :: rest =>
      let h' := final_home h [c] in
      if request_fails h c then successful h' rest else c :: successful h' rest
  end.

(** The invariant of the thermostat: the temperature is in range, and a
    thermostat that was never set is off and at its default. *)
Definition thermostat_inv (h : SmartHome) : Prop :=
  18 <= Thermostat.temperature (thermostat h) <= 30
  /\ (Thermostat.state (thermostat h) = true
      \/ Thermostat.temperature (thermostat h) = 22).

(** The devices other than [d] are the same in [h] and [h']. *)
Definition others_unchanged (d : DeviceKind) (h h' : SmartHome) : Prop :=
  match d with
  | DevLight => fan h' = fan h /\ thermostat h' = thermostat h
  | DevFan => light h' = light h /\ thermostat h' = thermostat h
  | DevThermostat => light h' = light h /\ fan h' = fan h
  end.

(** Registries reached from the initial one by dispatching batches. *)
Definition after_batches (batches : list (list dict)) : SmartHome :=
  fold_left final_home batches SmartHome_init.

(** What the fan branch relies on, one character at a time: when the
    folded character is a letter a-z, [upper] of [lower] is its capital;
    otherwise it is a single code point that is no capital A-Z, or "SS". *)
Definition upper_lower_ok (c : ascii) : bool :=
  let f := N_of_ascii (ascii_fold c) in
  if in_range 97 122 f
  then N_list_eqb (char_upper (char_lower c)) [(f - 32)%N]
  else match char_upper (char_lower c) with
       | [n] => negb (in_range 65 90 n)
       | [a; b] => ((a =? 83) && (b =? 83))%N
       | _ => false
       end.

(** A letter a-z other than s: the characters of the four speed names. *)
Definition name_char (x : ascii) : bool :=
  in_range 97 122 (N_of_ascii x) && negb (N_of_ascii x =? 115)%N.

(** The code points of the capitalised name. *)
Definition shout (t : string) : list N :=
  map (fun c => (N_of_ascii c - 32)%N) (list_ascii_of_string t).

(** [str(t)] for an integer [t]. *)
Definition py_str_int (t : Z) : string := pretty t.

(** The one-character string U+00B2, SUPERSCRIPT TWO. *)
Definition superscript_two : string := String (ascii_of_N 178) "".

(** ** The effect of one request

    Whatever the registry, a request either leaves it alone or assigns
    constants to the fields of one device. *)

Inductive effect : Type :=
  | Keep
  | SetLight (b : bool)
  | SetFan (v : FanSpeed)
  | SetThermostat (t : Z).

Definition apply_effect (e : effect) (h : SmartHome) : SmartHome :=
  match e with
  | Keep => h
  | SetLight b => with_light h b
  | SetFan v => with_fan h v
  | SetThermostat t => with_thermostat h t
  end.

(** The device an effect assigns to. *)
Definition effect_on (e : effect) (d : DeviceKind) : bool :=
  match e, d with
  | SetLight _, DevLight | SetFan _, DevFan | SetThermostat _, DevThermostat => true
  | _, _ => false
  end.

(** The four shapes of a request, uniformly in the registry it meets: a
    status report, nothing at all, one error, or one confirmation together
    with an assignment to the device the request names. *)
Inductive shape (c : dict) : Prop :=
  | shape_status :
      py_eq (dict_get c "action") "get_status" = true ->
      (forall h, step c h = (h, [status_text h])) -> shape c
  | shape_silent :
      py_eq (dict_get c "action") "get_status" = false ->
      (forall h, step c h = (h, [])) -> shape c
  | shape_failure (err : string) :
      py_eq (dict_get c "action") "get_status" = false ->
      is_error err = true ->
      (forall h, step c h = (h, [err])) -> shape c
  | shape_success (e : effect) (d : DeviceKind) (msg : string) :
      py_eq (dict_get c "action") "get_status" = false ->
      py_eq (dict_get c "device") (device_name d) = true ->
      effect_on e d = true ->
      is_error msg = false ->
      (forall h, step c h = (apply_effect e h, [msg])) -> shape c.

(** [s.isascii()] *)
Definition is_ascii (s : string) : bool :=
  forallb (fun c => (N_of_ascii c <? 128)%N) (list_ascii_of_string s).

(** ["0" * n] *)
Fixpoint zeros (n : nat) : string :=
  match n with
  | O => ""
  | S n' => String "0" (zeros n')
  end.

(** [home.get_status()[key]]; [None] stands for the [KeyError]. *)
Definition status_item (self : SmartHome) (key : string) : option string :=
  snd <$> find (fun kv => String.eqb (fst kv) key) (get_status self).

(** What [char_lower] does to a character that folds to a letter a-z. *)
Definition lower_is_fold (c : ascii) : bool :=
  if in_range 97 122 (N_of_ascii (ascii_fold c))
  then Ascii.eqb (char_lower c) (ascii_fold c) else true.

(** ** [CommandParser.parse_command], the branch for [use_dummy_parser]

    The result is the text the method prints and the list it returns.  The
    other branch asks a language model and is not part of this
    development. *)
Definition parse_command (command : string) : list string * list dict :=
  let printed := ["Dummy parser received command: '" +:+ command +:+ "'"] in
  let lowered := str_lower command in
  if String.eqb lowered "turn on the light" then
    (printed, [ {[ "action" := PStr "turn_on"; "device" := PStr "light" ]} ])
  else if String.eqb lowered "set the fan speed to high" then
    (printed, [ {[ "action" := PStr "set"; "device" := PStr "fan";
                   "param" := PStr "high" ]} ])
  else if String.eqb lowered "set the thermostat to 24" then
    (printed, [ {[ "action" := PStr "set"; "device" := PStr "thermostat";
                   "param" := PStr "24" ]} ])
  else if String.eqb lowered "get the status" then
    (printed, [ {[ "action" := PStr "get_status" ]} ])
  else if String.eqb lowered "turn off the light and set temperature to 20" then
    (printed, [ {[ "action" := PStr "turn_off"; "device" := PStr "light" ]};
                {[ "action" := PStr "set"; "device" := PStr "thermostat";
                   "param" := PStr "20" ]} ])
  else if String.eqb lowered "invalid command" then
    (printed, [])
  else
    (printed, [ {[ "action" := PStr "unknown"; "command" := PStr command ]} ]).

(** ** [main], in testing mode without the demo

    What [input] delivers is a list of events; what is written to the
    terminal is the list of the texts given to [input] and [print], in
    order.  When the events run out, [input] raises [EOFError], the generic
    handler prints it, and the loop asks again without end: the model stops
    there with [EndOfInput]. *)
Inductive input_event : Type :=
  | Line (text : string)
  | KeyboardInterrupt.

Inductive ending : Type := Break | EndOfInput.

Definition prompt : string := nl +:+ "Enter command: ".

(** [command.lower() in ["exit", "quit"]] *)
Definition is_quit (command : string) : bool :=
  String.eqb (str_lower command) "exit" || String.eqb (str_lower command) "quit".

Fixpoint interactive_loop (home : SmartHome) (events : list input_event)
  : list string * SmartHome * ending :=
  match events with
  | [] => ([prompt], home, EndOfInput)
  | KeyboardInterrupt :: _ => ([prompt], home, Break)
  | Line command :: rest =>
      if is_quit command then ([prompt], home, Break)
      else
        let (printed, parsed) := parse_command command in
        let (r, home') := handle_command home parsed in
        let shown :=
          match r with
          | Return response => nl +:+ response
          | Raise e => "Error processing command: " +:+ str_exn e
          end in
        let '(more, home'', e) := interactive_loop home' rest in
        (prompt :: printed ++ shown :: more, home'', e)
  end.

Definition main (events : list input_event) : list string * SmartHome * ending :=
  let '(written, home, e) := interactive_loop SmartHome_init events in
  ("Using dummy command parser for testing."
   :: "Smart Home Control System (Testing Mode)" :: written, home, e).

(** The registries the dummy parser can bring about. *)
Definition test_mode_inv (h : SmartHome) : Prop :=
  (Fan.speed (fan h) = OFF \/ Fan.speed (fan h) = HIGH)
  /\ (thermostat h = Thermostat.init
      \/ thermostat h = {| Thermostat.temperature := 24; Thermostat.state := true |}
      \/ thermostat h = {| Thermostat.temperature := 20; Thermostat.state := true |}).

(** The sentences the dummy parser compares the lower-cased command with. *)
Definition dummy_sentences : list string :=
  [ "turn on the light"; "set the fan speed to high"; "set the thermostat to 24";
    "get the status"; "turn off the light and set temperature to 20";
    "invalid command" ].

Definition knows (command : string) : bool :=
  existsb (String.eqb (str_lower command)) dummy_sentences.

(** The request lists the dummy parser can return. *)
Definition dummy_requests (reqs : list ActionRequest) : Prop :=
  reqs = [TurnOn DevLight] \/ reqs = [SetParam DevFan "high"]
  \/ reqs = [SetParam DevThermostat "24"] \/ reqs = [GetStatus]
  \/ reqs = [TurnOff DevLight; SetParam DevThermostat "20"] \/ reqs = []
  \/ (exists t, reqs = [Unrecognized t]).


(** * Properties *)

Ltac run_monad :=
  unfold loop_body, try_except, try_block, method_lower, method_isdigit,
    py_float, py_int, float_of_digits, int_of_str, bind, ret, raise, lift, append,
    set_light_state, set_fan_speed, set_thermostat_temperature,
    set_thermostat_state, set_home, get_home; simpl.

Ltac split_tests :=
  repeat match goal with
  | |- context [String.eqb ?a ?b] => destruct (String.eqb a b) eqn:?; simpl
  | |- context [Z.eqb ?a ?b] => destruct (Z.eqb a b) eqn:?; simpl
  | |- context [negb ?b] => destruct b; simpl
  | |- context [default _ (?d !! ?k)] =>
      destruct (d !! k) as [[| | |]|] eqn:?; simpl in *
  | |- context [str_isdigit ?s] => destruct (str_isdigit s) eqn:?; simpl
  | |- context [forallb ?f ?l] => destruct (forallb f l) eqn:?; simpl
  | |- context [Z.leb ?a ?b] => destruct (Z.leb a b) eqn:?; simpl
  | |- context [Z.ltb ?a ?b] => destruct (Z.ltb a b) eqn:?; simpl
  | |- context [FanSpeed_getitem ?n] => destruct (FanSpeed_getitem n) eqn:?; simpl
  end.

Ltac side_condition :=
  repeat match goal with
  | H : dict_get _ _ = _ |- _ => rewrite H
  | H : dict_get_default _ _ _ = _ |- _ => rewrite H
  end;
  simpl; first [ done | lia | eauto ].

Lemma loop_body_handled (parsed : dict) (w : World) :
  exists h' rs,
    loop_body parsed w = (Return tt, mkWorld h' (responses w ++ rs))
    /\ handled parsed (home w) h' rs.
Proof.
  destruct w as [h rs0].
  assert (Hp1 : dict_get parsed "param" = default PNone (parsed !! "param")) by reflexivity.
  assert (Hp2 : dict_get_default parsed "param" (PStr "") = default (PStr "") (parsed !! "param"))
    by reflexivity.
  run_monad. rewrite Hp1, Hp2.
  destruct (dict_get parsed "device") as [|b|z|dv] eqn:Hd;
  destruct (dict_get parsed "action") as [|b'|z'|ac] eqn:Ha; simpl.
  all: split_tests.
  all: (eexists _, _; split;
        [first [reflexivity | instantiate (1 := []); rewrite app_nil_r; reflexivity]|]).
  all: try solve [econstructor; side_condition].
  all: try solve [
    match goal with
    | H : dict_get_default _ _ _ = ?v |- handled _ _ _ [ _ ] =>
        apply (H_fan_param_exn parsed h v); side_condition
    end
  | match goal with
    | H : dict_get _ "param" = ?v |- handled _ _ _ [ _ ] =>
        apply (H_thermostat_param_exn parsed h v); side_condition
    end ].
  all: match goal with
       | H : (int_max_str_digits <? Z.of_nat (String.length ?s))%Z = true |- _ =>
           eapply (H_thermostat_int_exn parsed h s (ValueError _));
             [side_condition.. | unfold int_of_str; rewrite H; reflexivity]
       end.
Qed.

Lemma loop_body_frame (parsed : dict) (h : SmartHome) (rs0 : list string) :
  loop_body parsed (mkWorld h rs0)
  = (Return tt, mkWorld (fst (step parsed h)) (rs0 ++ snd (step parsed h))).
Proof.
  unfold step. run_monad. unfold dict_get_default.
  change (dict_get parsed "param") with (default PNone (parsed !! "param")).
  destruct (dict_get parsed "device") as [|b|z|dv];
  destruct (dict_get parsed "action") as [|b'|z'|ac]; simpl.
  all: split_tests.
  all: rewrite ?app_nil_r; reflexivity.
Qed.

Lemma step_handled (parsed : dict) (h : SmartHome) :
  handled parsed h (fst (step parsed h)) (snd (step parsed h)).
Proof.
  destruct (loop_body_handled parsed (mkWorld h [])) as (h1 & rs1 & E1 & H1).
  unfold step. rewrite E1. exact H1.
Qed.

Lemma for_each_world (cmds : list dict) (h : SmartHome) (rs0 : list string) :
  for_each cmds (mkWorld h rs0)
  = (Return tt, mkWorld (final_home h cmds) (rs0 ++ outcomes h cmds)).
Proof.
  revert h rs0. induction cmds as [|c r IH]; intros h rs0.
  - unfold final_home, outcomes, run. simpl. unfold ret. simpl.
    by rewrite app_nil_r.
  - unfold final_home, outcomes, run. simpl. unfold bind.
    rewrite !loop_body_frame, !IH. simpl. by rewrite app_assoc.
Qed.

(** ** The loop is a left-to-right composition of single requests *)

Lemma run_world (h : SmartHome) (cmds : list dict) :
  run h cmds = (Return tt, mkWorld (final_home h cmds) (outcomes h cmds)).
Proof. unfold run. by rewrite for_each_world. Qed.

Lemma final_home_nil (h : SmartHome) : final_home h [] = h.
Proof. reflexivity. Qed.

Lemma outcomes_nil (h : SmartHome) : outcomes h [] = [].
Proof. reflexivity. Qed.

Lemma final_home_single (h : SmartHome) (c : dict) : final_home h [c] = fst (step c h).
Proof.
  unfold final_home, run. simpl. unfold bind. by rewrite loop_body_frame.
Qed.

Lemma outcomes_single (h : SmartHome) (c : dict) : outcomes h [c] = snd (step c h).
Proof.
  unfold outcomes, run. simpl. unfold bind. by rewrite loop_body_frame.
Qed.

Lemma final_home_cons (h : SmartHome) (c : dict) (rest : list dict) :
  final_home h (c :: rest) = final_home (final_home h [c]) rest.
Proof.
  rewrite final_home_single. unfold final_home at 1. unfold run. simpl. unfold bind.
  by rewrite loop_body_frame, for_each_world.
Qed.

Lemma outcomes_cons (h : SmartHome) (c : dict) (rest : list dict) :
  outcomes h (c :: rest) = outcomes h [c] ++ outcomes (final_home h [c]) rest.
Proof.
  rewrite final_home_single, outcomes_single. unfold outcomes at 1. unfold run.
  simpl. unfold bind. by rewrite loop_body_frame, for_each_world.
Qed.

Lemma final_home_app (h : SmartHome) (a b : list dict) :
  final_home h (a ++ b) = final_home (final_home h a) b.
Proof.
  revert h. induction a as [|c a IH]; intros h; [done|].
  simpl. by rewrite final_home_cons, IH, <- final_home_cons.
Qed.

Lemma outcomes_app (h : SmartHome) (a b : list dict) :
  outcomes h (a ++ b) = outcomes h a ++ outcomes (final_home h a) b.
Proof.
  revert h. induction a as [|c a IH]; intros h; [done|].
  simpl. rewrite outcomes_cons, IH, (outcomes_cons h c a), <- final_home_cons.
  by rewrite app_assoc.
Qed.

Lemma handled_single (h : SmartHome) (c : dict) :
  handled c h (final_home h [c]) (outcomes h [c]).
Proof. rewrite final_home_single, outcomes_single. apply step_handled. Qed.

(** Every path appends at most one response. *)
Lemma handled_at_most_one (c : dict) (h h' : SmartHome) (rs : list string) :
  handled c h h' rs -> rs = [] \/ exists msg, rs = [msg].
Proof. destruct 1; eauto. Qed.

(** A path that appends an error leaves the registry as it was. *)
Lemma handled_error_unchanged (c : dict) (h h' : SmartHome) (rs : list string) :
  handled c h h' rs -> existsb is_error rs = true -> h' = h.
Proof. destruct 1; simpl; intros E; try reflexivity; discriminate E. Qed.

(** A path that appends nothing leaves the registry as it was. *)
Lemma handled_silent_unchanged (c : dict) (h h' : SmartHome) :
  handled c h h' [] -> h' = h.
Proof. inversion 1; reflexivity. Qed.

Lemma handled_preserves_inv (c : dict) (h h' : SmartHome) (rs : list string) :
  handled c h h' rs -> thermostat_inv h -> thermostat_inv h'.
Proof.
  unfold thermostat_inv. destruct 1; simpl; intros [Hr Hd]; split; auto.
Qed.

(** ** The dictionaries of the action requests *)

Lemma encode_device (r : ActionRequest) :
  dict_get (encode r) "device" =
  match r with
  | TurnOn d | TurnOff d | SetParam d _ => PStr (device_name d)
  | GetStatus | Unrecognized _ => PNone
  end.
Proof. destruct r as [[]|[]|[] p| |t]; vm_compute; reflexivity. Qed.

Lemma encode_action (r : ActionRequest) :
  dict_get (encode r) "action" =
  PStr match r with
       | TurnOn _ => "turn_on" | TurnOff _ => "turn_off" | SetParam _ _ => "set"
       | GetStatus => "get_status" | Unrecognized _ => "unknown"
       end.
Proof. destruct r as [[]|[]|[] p| |t]; vm_compute; reflexivity. Qed.

Lemma encode_param (r : ActionRequest) :
  encode r !! "param" =
  match r with SetParam _ p => Some (PStr p) | _ => None end.
Proof. destruct r as [[]|[]|[] p| |t]; vm_compute; reflexivity. Qed.

Ltac step_encode :=
  unfold step, loop_body, try_block, dict_get_default;
  rewrite ?encode_device, ?encode_action; unfold dict_get;
  rewrite ?encode_param; run_monad.

Lemma step_turn_on (d : DeviceKind) (h : SmartHome) :
  step (encode (TurnOn d)) h =
  match d with
  | DevLight => (with_light h true, ["Light is now ON"])
  | DevFan => (with_fan h LOW, ["Fan is now ON (set to low)"])
  | DevThermostat => (h, [])
  end.
Proof. destruct d; step_encode; reflexivity. Qed.

Lemma step_turn_off (d : DeviceKind) (h : SmartHome) :
  step (encode (TurnOff d)) h =
  match d with
  | DevLight => (with_light h false, ["Light is now OFF"])
  | DevFan => (with_fan h OFF, ["Fan is now OFF"])
  | DevThermostat => (h, [])
  end.
Proof. destruct d; step_encode; reflexivity. Qed.

Lemma step_set_light (p : string) (h : SmartHome) :
  step (encode (SetParam DevLight p)) h = (h, []).
Proof. step_encode; reflexivity. Qed.

Lemma step_set_fan (p : string) (h : SmartHome) :
  step (encode (SetParam DevFan p)) h =
  match FanSpeed_getitem (str_upper (str_lower p)) with
  | Some v => (with_fan h v, ["Fan speed set to " +:+ str_lower p])
  | None => (h, [fan_speed_error (str_lower p)])
  end.
Proof. step_encode. split_tests; reflexivity. Qed.

Lemma step_set_thermostat (s : string) (h : SmartHome) :
  step (encode (SetParam DevThermostat s)) h =
  if str_isdigit s then
    if forallb char_isdecimal (list_ascii_of_string s) then
      if ((18 <=? int_of_digits s) && (int_of_digits s <=? 30))%Z then
        match int_of_str s with
        | Return temp =>
            (with_thermostat h temp,
             ["Thermostat set to " +:+ pretty temp +:+ degree +:+ "C"])
        | Raise e => (h, ["Error processing command: " +:+ str_exn e])
        end
      else (h, ["Error: Temperature Out Of Range."])
    else (h, ["Error processing command: could not convert string to float: "
              +:+ repr_plain s])
  else (h, ["Error: Invalid temperature value."]).
Proof. step_encode. split_tests; reflexivity. Qed.

(** A string within the digit limit is converted. *)
Lemma int_of_str_short (s : string) :
  Z.of_nat (String.length s) <= int_max_str_digits ->
  int_of_str s = Return (int_of_digits s).
Proof.
  intros Hl. unfold int_of_str.
  by destruct (Z.ltb_spec int_max_str_digits (Z.of_nat (String.length s))); [lia|].
Qed.

Lemma step_get_status (h : SmartHome) :
  step (encode GetStatus) h = (h, [status_text h]).
Proof. step_encode; reflexivity. Qed.

Lemma step_unrecognized (t : string) (h : SmartHome) :
  step (encode (Unrecognized t)) h = (h, ["Error: Could not understand the command."]).
Proof. step_encode; reflexivity. Qed.

(** ** Fan speed names *)

Lemma upper_lower_char (c : ascii) : upper_lower_ok c = true.
Proof. destruct c as [[] [] [] [] [] [] [] []]; vm_compute; reflexivity. Qed.

Lemma N_of_ascii_inj (a b : ascii) : N_of_ascii a = N_of_ascii b -> a = b.
Proof.
  intros E. rewrite <- (ascii_N_embedding a), <- (ascii_N_embedding b). by rewrite E.
Qed.

Ltac to_props :=
  repeat match goal with
  | H : _ && _ = true |- _ => apply andb_true_iff in H as [? ?]
  | H : _ && _ = false |- _ => apply andb_false_iff in H as [?|?]
  | H : negb _ = true |- _ => apply negb_true_iff in H
  | H : negb _ = false |- _ => apply negb_false_iff in H
  | H : (_ <=? _)%N = true |- _ => apply N.leb_le in H
  | H : (_ <=? _)%N = false |- _ => apply N.leb_gt in H
  | H : (_ =? _)%N = true |- _ => apply N.eqb_eq in H
  | H : (_ =? _)%N = false |- _ => apply N.eqb_neq in H
  end.

Lemma upper_lower_match (s t : string) :
  forallb name_char (list_ascii_of_string t) = true ->
  str_upper (str_lower s) = shout t <-> fold_case s = t.
Proof.
  revert t. induction s as [|c s IH]; intros t Ht.
  - destruct t; simpl; split; intros E; done.
  - assert (Eu : str_upper (str_lower (String c s))
                 = char_upper (char_lower c) ++ str_upper (str_lower s)).
    { unfold str_upper, str_lower. simpl.
      by rewrite !list_ascii_of_string_of_list_ascii. }
    assert (Ef : fold_case (String c s) = String (ascii_fold c) (fold_case s)) by done.
    rewrite Eu, Ef. clear Eu Ef.
    pose proof (upper_lower_char c) as Hc. unfold upper_lower_ok in Hc.
    destruct t as [|x t].
    { split; [|done]. intros E.
      destruct (in_range 97 122 _).
      - apply bool_decide_eq_true in Hc. by rewrite Hc in E.
      - destruct (char_upper (char_lower c)); done. }
    simpl in Ht. apply andb_true_iff in Ht as [Hx Ht].
    specialize (IH t Ht). unfold shout; simpl; fold (shout t).
    unfold name_char, in_range in Hx.
    destruct (in_range 97 122 (N_of_ascii (ascii_fold c))) eqn:Hf.
    + apply bool_decide_eq_true in Hc. rewrite Hc. simpl.
      unfold in_range in Hf. split.
      * intros [= E1 E2]. f_equal; [|by apply IH].
        apply N_of_ascii_inj. to_props. lia.
      * intros [= E1 E2]. f_equal; [by rewrite E1 | by apply IH].
    + split.
      * intros E. exfalso.
        destruct (char_upper (char_lower c)) as [|n [|m [|]]]; try done;
          simpl in E; injection E as E1 E2; unfold in_range in Hc; to_props; lia.
      * intros [= E1 E2]. rewrite E1 in Hf. unfold in_range in Hf. to_props; lia.
Qed.

Lemma name_lookup (s t : string) :
  forallb name_char (list_ascii_of_string t) = true ->
  N_list_eqb (str_upper (str_lower s)) (shout t) = String.eqb (fold_case s) t.
Proof.
  intros Ht. unfold N_list_eqb.
  destruct (String.eqb_spec (fold_case s) t) as [E|E].
  - apply bool_decide_eq_true. by apply upper_lower_match.
  - apply bool_decide_eq_false. intros E'. by apply upper_lower_match in E'.
Qed.

(** [FanSpeed[speed_str.upper()]] finds a member exactly when the raw
    parameter is one of the four names up to the case of its letters. *)
Lemma fan_lookup_spec (s : string) :
  FanSpeed_getitem (str_upper (str_lower s)) = fan_speed_of_name s.
Proof.
  unfold FanSpeed_getitem, fan_speed_of_name.
  change (codes "OFF") with (shout "off").
  change (codes "LOW") with (shout "low").
  change (codes "MEDIUM") with (shout "medium").
  change (codes "HIGH") with (shout "high").
  by rewrite !name_lookup.
Qed.

(** ** Decimal text of an integer: [str(t)] is [pretty t] *)

Lemma pretty_N_char_decimal (r : N) :
  (r < 10)%N ->
  char_isdecimal (pretty_N_char r) = true
  /\ digit_value (pretty_N_char r) = Z.of_N r.
Proof.
  intros Hr.
  assert (r = 0 ∨ r = 1 ∨ r = 2 ∨ r = 3 ∨ r = 4 ∨ r = 5 ∨ r = 6 ∨ r = 7
          ∨ r = 8 ∨ r = 9)%N as Hc by lia.
  repeat (destruct Hc as [->|Hc]; [by vm_compute|]). subst. by vm_compute.
Qed.

Lemma pretty_N_go_decimal (x : N) (s : string) :
  forallb char_isdecimal (list_ascii_of_string (pretty_N_go x s))
  = forallb char_isdecimal (list_ascii_of_string s).
Proof.
  revert s. induction (N.lt_wf_0 x) as [x _ IH]; intros s.
  assert (x = 0 ∨ 0 < x)%N as [->|Hx] by lia; [by rewrite pretty_N_go_0|].
  rewrite pretty_N_go_step by done.
  rewrite IH by (by apply N.div_lt). simpl.
  destruct (pretty_N_char_decimal (x `mod` 10)) as [-> _]; [|done].
  by apply N.mod_lt.
Qed.

Lemma pretty_N_go_value (x : N) (s : string) :
  fold_left (fun acc c => 10 * acc + digit_value c)
    (list_ascii_of_string (pretty_N_go x s)) 0
  = fold_left (fun acc c => 10 * acc + digit_value c)
      (list_ascii_of_string s) (Z.of_N x).
Proof.
  revert s. induction (N.lt_wf_0 x) as [x _ IH]; intros s.
  assert (x = 0 ∨ 0 < x)%N as [->|Hx] by lia; [by rewrite pretty_N_go_0|].
  rewrite pretty_N_go_step by done.
  rewrite IH by (by apply N.div_lt). simpl.
  destruct (pretty_N_char_decimal (x `mod` 10)) as [_ ->]; [by apply N.mod_lt|].
  f_equal. rewrite (N.div_mod x 10) at 3 by done. lia.
Qed.

Lemma decimal_isdigit (l : list ascii) :
  forallb char_isdecimal l = true -> forallb char_isdigit l = true.
Proof.
  induction l as [|c l IH]; simpl; [done|].
  intros [Hc Hl]%andb_true_iff. rewrite IH by done.
  unfold char_isdigit. unfold char_isdecimal in Hc. by rewrite Hc.
Qed.

(** The text of a natural number is a non-empty string of decimal digits
    that reads back as the number. *)
Lemma pretty_nonneg (t : Z) :
  0 <= t ->
  str_isdigit (pretty t) = true
  /\ forallb char_isdecimal (list_ascii_of_string (pretty t)) = true
  /\ int_of_digits (pretty t) = t.
Proof.
  intros Ht. destruct t as [|p|p]; [by vm_compute| |lia].
  change (pretty (Z.pos p)) with (pretty_N_go (N.pos p) "").
  pose proof (pretty_N_go_decimal (N.pos p) "") as Hd.
  pose proof (pretty_N_go_value (N.pos p) "") as Hv. simpl in Hd, Hv.
  split_and!; [|done|done].
  unfold str_isdigit.
  destruct (list_ascii_of_string (pretty_N_go (N.pos p) "")) as [|c l] eqn:E.
  - simpl in Hv. lia.
  - by apply decimal_isdigit.
Qed.

(** The text of a negative number starts with a minus sign. *)
Lemma pretty_neg (t : Z) : t < 0 -> str_isdigit (pretty t) = false.
Proof.
  intros Ht. destruct t as [|p|p]; [lia|lia|].
  change (pretty (Z.neg p)) with ("-" +:+ pretty p). reflexivity.
Qed.

(** ** Batches of action requests *)

Lemma dispatch_single (h : SmartHome) (r : ActionRequest) :
  dispatch h [r] = snd (step (encode r) h).
Proof. unfold dispatch. simpl. apply outcomes_single. Qed.

(** Outcomes come in the order of the requests: the outcomes of a batch are
    those of its first part followed by those of the rest, run in the
    registry the first part left. *)
Lemma dispatch_app (h : SmartHome) (a b : list ActionRequest) :
  dispatch h (a ++ b) = dispatch h a ++ dispatch (final_home h (map encode a)) b.
Proof. unfold dispatch. by rewrite map_app, outcomes_app. Qed.

Lemma dispatch_single_length (h : SmartHome) (r : ActionRequest) :
  length (dispatch h [r]) = if listed r then 1%nat else 0%nat.
Proof.
  rewrite dispatch_single.
  destruct r as [d|d|d p| |t].
  - rewrite step_turn_on. by destruct d.
  - rewrite step_turn_off. by destruct d.
  - destruct d.
    + by rewrite step_set_light.
    + rewrite step_set_fan. by destruct (FanSpeed_getitem _).
    + rewrite step_set_thermostat. by repeat case_match.
  - by rewrite step_get_status.
  - by rewrite step_unrecognized.
Qed.

(** A batch has one outcome for each request of a listed combination and
    none for the others. *)
Lemma dispatch_length (h : SmartHome) (reqs : list ActionRequest) :
  length (dispatch h reqs) = length (filter (fun r => listed r = true) reqs).
Proof.
  revert h. induction reqs as [|r reqs IH]; intros h; [done|].
  change (r :: reqs) with ([r] ++ reqs).
  rewrite dispatch_app, length_app, IH, dispatch_single_length.
  rewrite filter_app, length_app. f_equal.
  simpl. rewrite filter_cons, filter_nil. destruct (listed r); by case_decide.
Qed.

(** For a batch of listed combinations: exactly one outcome per request. *)
Lemma dispatch_listed_length (h : SmartHome) (reqs : list ActionRequest) :
  forallb listed reqs = true -> length (dispatch h reqs) = length reqs.
Proof.
  intros Hl. rewrite dispatch_length. f_equal.
  induction reqs as [|r reqs IH]; [done|].
  simpl in Hl. apply andb_true_iff in Hl as [Hr Hl].
  rewrite filter_cons. rewrite decide_True by done. f_equal. by apply IH.
Qed.

Lemma dispatch_at_most_one (h : SmartHome) (reqs : list ActionRequest) :
  (length (dispatch h reqs) <= length reqs)%nat.
Proof. rewrite dispatch_length. apply length_filter. Qed.

(** C1 (the code departs from the claim).  The claim: every request of a
    batch yields exactly one outcome, and a device/action combination that
    is not in the table yields an UnsupportedAction failure.  The code:
    [set] on the light, and [turn_on] or [turn_off] on the thermostat, fall
    through the [if]/[elif] chain of their device and append nothing, so the
    batch made of one such request has no outcome at all. *)
Theorem unlisted_request_has_no_outcome (h : SmartHome) (p : string) :
  dispatch h [SetParam DevLight p] = []
  /\ dispatch h [TurnOn DevThermostat] = []
  /\ dispatch h [TurnOff DevThermostat] = []
  /\ length (dispatch h [TurnOn DevLight; SetParam DevLight p; TurnOff DevLight]) = 2%nat.
Proof.
  rewrite !dispatch_single, step_set_light, step_turn_on, step_turn_off.
  split_and!; done.
Qed.

(** ** Thermostat [set] *)

(** The five ways a thermostat [set] request with a string parameter ends. *)
Lemma thermostat_set_cases (h : SmartHome) (s : string) :
  let decimal := forallb char_isdecimal (list_ascii_of_string s) in
  let out := dispatch h [SetParam DevThermostat s] in
  let h' := final_home h [encode (SetParam DevThermostat s)] in
  if str_isdigit s && decimal then
    if ((18 <=? int_of_digits s) && (int_of_digits s <=? 30))%Z then
      match int_of_str s with
      | Return temp =>
          out = ["Thermostat set to " +:+ pretty temp +:+ degree +:+ "C"]
          /\ h' = with_thermostat h temp
      | Raise e => out = ["Error processing command: " +:+ str_exn e] /\ h' = h
      end
    else out = ["Error: Temperature Out Of Range."] /\ h' = h
  else if str_isdigit s then
    out = ["Error processing command: could not convert string to float: "
           +:+ repr_plain s] /\ h' = h
  else out = ["Error: Invalid temperature value."] /\ h' = h.
Proof.
  cbv zeta. rewrite dispatch_single, final_home_single, step_set_thermostat.
  destruct (str_isdigit s), (forallb char_isdecimal (list_ascii_of_string s)),
    ((18 <=? int_of_digits s) && (int_of_digits s <=? 30))%Z; try done.
  by destruct (int_of_str s).
Qed.

(** A string of the decimal digits 0-9, no more of them than [int] converts: the
    request succeeds exactly when its value is in [18, 30], and fails as out
    of range otherwise. *)
Lemma thermostat_set_decimal (h : SmartHome) (s : string) :
  s <> "" ->
  forallb char_isdecimal (list_ascii_of_string s) = true ->
  Z.of_nat (String.length s) <= int_max_str_digits ->
  if ((18 <=? int_of_digits s) && (int_of_digits s <=? 30))%Z then
    dispatch h [SetParam DevThermostat s]
    = ["Thermostat set to " +:+ pretty (int_of_digits s) +:+ degree +:+ "C"]
    /\ final_home h [encode (SetParam DevThermostat s)]
       = with_thermostat h (int_of_digits s)
  else
    dispatch h [SetParam DevThermostat s] = ["Error: Temperature Out Of Range."]
    /\ final_home h [encode (SetParam DevThermostat s)] = h.
Proof.
  intros Hne Hdec Hlen. pose proof (thermostat_set_cases h s) as H. cbv zeta in H.
  rewrite Hdec, (int_of_str_short s Hlen) in H.
  assert (Hdig : str_isdigit s = true).
  { unfold str_isdigit. destruct s as [|c s]; [done|]. by apply decimal_isdigit. }
  by rewrite Hdig in H.
Qed.

(** A string of decimal digits whose value is in range but which is longer
    than [int] converts (it starts with zeros): [float] and the range test
    pass, [int] raises, and the generic handler answers. *)
Lemma thermostat_set_too_long (h : SmartHome) (s : string) :
  forallb char_isdecimal (list_ascii_of_string s) = true ->
  18 <= int_of_digits s <= 30 ->
  int_max_str_digits < Z.of_nat (String.length s) ->
  dispatch h [SetParam DevThermostat s]
  = ["Error processing command: Exceeds the limit (4300 digits) for integer string conversion: value has "
     +:+ pretty (Z.of_nat (String.length s))
     +:+ " digits; use sys.set_int_max_str_digits() to increase the limit"]
  /\ final_home h [encode (SetParam DevThermostat s)] = h.
Proof.
  intros Hdec Hr Hlen. pose proof (thermostat_set_cases h s) as H. cbv zeta in H.
  assert (Hdig : str_isdigit s = true).
  { unfold str_isdigit. destruct s as [|c s];
      [change (int_of_digits "") with 0 in Hr; lia|].
    by apply decimal_isdigit. }
  rewrite Hdec, Hdig in H. cbn [andb] in H.
  replace ((18 <=? int_of_digits s) && (int_of_digits s <=? 30))%Z with true in H by lia.
  unfold int_of_str in H.
  by destruct (Z.ltb_spec int_max_str_digits (Z.of_nat (String.length s))); [|lia].
Qed.

(** A missing parameter, or a string that [isdigit] rejects (the empty
    string, a sign, a decimal point, a letter), is an invalid value. *)
Lemma thermostat_set_invalid (h : SmartHome) (s : string) :
  str_isdigit s = false ->
  dispatch h [SetParam DevThermostat s] = ["Error: Invalid temperature value."]
  /\ final_home h [encode (SetParam DevThermostat s)] = h.
Proof.
  intros Hd. pose proof (thermostat_set_cases h s) as H. cbv zeta in H.
  by rewrite Hd in H.
Qed.

Lemma thermostat_set_missing (h : SmartHome) :
  let c : dict := {[ "action" := PStr "set"; "device" := PStr "thermostat" ]} in
  outcomes h [c] = ["Error: Invalid temperature value."] /\ final_home h [c] = h.
Proof.
  simpl. rewrite outcomes_single, final_home_single. by vm_compute.
Qed.

(** The range property on the text of an integer: [str(t)] succeeds exactly
    for [18 <= t <= 30]; a negative [t] is invalid for its sign, any other
    [t] is out of range. *)
Lemma thermostat_set_str_int (h : SmartHome) (t : Z) :
  let out := dispatch h [SetParam DevThermostat (py_str_int t)] in
  let h' := final_home h [encode (SetParam DevThermostat (py_str_int t))] in
  if ((18 <=? t) && (t <=? 30))%Z then
    out = ["Thermostat set to " +:+ pretty t +:+ degree +:+ "C"]
    /\ h' = with_thermostat h t
  else if (t <? 0)%Z then out = ["Error: Invalid temperature value."] /\ h' = h
  else out = ["Error: Temperature Out Of Range."] /\ h' = h.
Proof.
  cbv zeta. unfold py_str_int.
  pose proof (thermostat_set_cases h (pretty t)) as H. cbv zeta in H.
  destruct (Z.ltb_spec t 0) as [Hneg|Hpos].
  - rewrite pretty_neg in H by done. simpl in H.
    replace ((18 <=? t) && (t <=? 30))%Z with false by lia. done.
  - destruct (pretty_nonneg t Hpos) as (Hd & Hc & Hv).
    rewrite Hd, Hc, Hv in H. cbn [andb] in H.
    destruct ((18 <=? t) && (t <=? 30))%Z eqn:Hr; [|done].
    assert (Hl : int_of_str (pretty t) = Return t).
    { rewrite <- Hv at 2. apply int_of_str_short.
      assert (t = 18 \/ t = 19 \/ t = 20 \/ t = 21 \/ t = 22 \/ t = 23 \/ t = 24
              \/ t = 25 \/ t = 26 \/ t = 27 \/ t = 28 \/ t = 29 \/ t = 30) as Ht by lia.
      repeat (destruct Ht as [->|Ht]; [by vm_compute|]). subst. by vm_compute. }
    by rewrite Hl in H.
Qed.

(** C2 (the code departs from the claim).  The claim: a thermostat [set]
    whose parameter is not all decimal digits fails with InvalidParameter.
    The code guards with [str.isdigit], which also accepts the superscript
    digits; [float] then rejects them, and the [ValueError] is answered by
    the generic [except] clause instead of "Error: Invalid temperature
    value.".  The rest of the claim holds: see [thermostat_set_decimal],
    [thermostat_set_invalid] and [thermostat_set_str_int]. *)
Theorem thermostat_set_superscript_digit (h : SmartHome) :
  str_isdigit superscript_two = true
  /\ forallb char_isdecimal (list_ascii_of_string superscript_two) = false
  /\ dispatch h [SetParam DevThermostat superscript_two]
     = ["Error processing command: could not convert string to float: '"
        +:+ superscript_two +:+ "'"]
  /\ has_kind InvalidParameter
       ("Error processing command: could not convert string to float: '"
        +:+ superscript_two +:+ "'") = false
  /\ final_home h [encode (SetParam DevThermostat superscript_two)] = h.
Proof.
  assert (E1 : str_isdigit superscript_two = true) by (by vm_compute).
  assert (E2 : forallb char_isdecimal (list_ascii_of_string superscript_two) = false)
    by (by vm_compute).
  pose proof (thermostat_set_cases h superscript_two) as H. cbv zeta in H.
  rewrite E1, E2 in H. cbn [andb] in H.
  destruct H as [H1 H2]. rewrite H1, H2. split_and!; done.
Qed.

(** ** Failures inside a batch *)

Lemma failed_request_outcome (h : SmartHome) (c : dict) :
  request_fails h c = true ->
  final_home h [c] = h
  /\ exists err, outcomes h [c] = [err] /\ is_error err = true.
Proof.
  unfold request_fails. intros Hf. pose proof (handled_single h c) as Hh.
  split; [by eapply handled_error_unchanged|].
  destruct (handled_at_most_one _ _ _ _ Hh) as [E|[msg E]]; rewrite E in Hf.
  - done.
  - exists msg. split; [done|]. simpl in Hf. by rewrite orb_false_r in Hf.
Qed.

(** The registry after a batch is the registry after its successful
    requests alone. *)
Lemma final_home_successful (h : SmartHome) (cmds : list dict) :
  final_home h cmds = final_home h (successful h cmds).
Proof.
  revert h. induction cmds as [|c cmds IH]; intros h; [done|].
  simpl. rewrite final_home_cons, IH.
  destruct (request_fails h c) eqn:Hf.
  - apply failed_request_outcome in Hf as [-> _]. done.
  - symmetry. apply final_home_cons.
Qed.

(** C3: a request that fails inside a batch contributes its one failure
    outcome and nothing else: the outcomes before it stand, the requests
    after it are processed in the registry the earlier ones left, the final
    registry is the one the batch without that request reaches, and
    altogether the final registry is the one reached by the successful
    requests alone, in order. *)
Theorem failed_request_is_isolated
    (h : SmartHome) (pre post : list dict) (bad : dict) :
  request_fails (final_home h pre) bad = true ->
  exists err,
    is_error err = true
    /\ outcomes h (pre ++ bad :: post)
       = outcomes h pre ++ [err] ++ outcomes (final_home h pre) post
    /\ final_home h (pre ++ bad :: post) = final_home h (pre ++ post)
    /\ final_home h (pre ++ bad :: post)
       = final_home h (successful h (pre ++ bad :: post)).
Proof.
  intros Hf. apply failed_request_outcome in Hf as (Hh & err & Ho & He).
  exists err. split_and!.
  - done.
  - by rewrite outcomes_app, outcomes_cons, Ho, Hh.
  - by rewrite !final_home_app, final_home_cons, Hh.
  - apply final_home_successful.
Qed.

Lemma failed_request_is_isolated_witness :
  let h := SmartHome_init in
  let pre := [encode (TurnOn DevLight)] in
  let bad := encode (SetParam DevThermostat "32") in
  let post := [encode (TurnOn DevFan)] in
  request_fails (final_home h pre) bad = true
  /\ exists err,
      is_error err = true
      /\ outcomes h (pre ++ bad :: post)
         = outcomes h pre ++ [err] ++ outcomes (final_home h pre) post
      /\ final_home h (pre ++ bad :: post) = final_home h (pre ++ post)
      /\ final_home h (pre ++ bad :: post)
         = final_home h (successful h (pre ++ bad :: post)).
Proof.
  cbv zeta. split; [vm_compute; reflexivity|].
  apply (failed_request_is_isolated SmartHome_init
           [encode (TurnOn DevLight)] [encode (TurnOn DevFan)]
           (encode (SetParam DevThermostat "32"))).
  vm_compute; reflexivity.
Defined.

(** ** Totality *)

(** C4: [handle_command] returns for every registry and every batch: no
    exception leaves it, and the string it returns is the join of the
    responses.  Inside one iteration an exception raised by the [try] block
    is turned into one "Error processing command" response. *)
Theorem handle_command_total
    (h : SmartHome) (cmds : list dict) (parsed : dict) (w : World) :
  handle_command h cmds
  = (Return (String.concat nl (outcomes h cmds)), final_home h cmds)
  /\ fst (loop_body parsed w) = Return tt
  /\ match try_block parsed w with
     | (Return _, w') => loop_body parsed w = (Return tt, w')
     | (Raise e, w') =>
         loop_body parsed w
         = (Return tt,
            mkWorld (home w') (responses w' ++ ["Error processing command: " +:+ str_exn e]))
     end.
Proof.
  split_and!.
  - unfold handle_command. by rewrite for_each_world.
  - destruct w as [h0 rs0]. by rewrite loop_body_frame.
  - unfold loop_body, try_except, append.
    destruct (try_block parsed w) as [[[]|e] w']; done.
Qed.

(** ** Unrecognized requests *)

(** C5, as the code has it: an Unrecognized request has no device, so it is
    answered by the fixed message "Error: Could not understand the
    command.", a failure; it is never dropped and the registry is left as
    it was.  The original text is not part of the message. *)
Theorem unrecognized_fixed_failure (h : SmartHome) (t : string) :
  dispatch h [Unrecognized t] = ["Error: Could not understand the command."]
  /\ is_error "Error: Could not understand the command." = true
  /\ has_kind UnsupportedAction "Error: Could not understand the command." = true
  /\ final_home h [encode (Unrecognized t)] = h.
Proof.
  rewrite dispatch_single, final_home_single, step_unrecognized. done.
Qed.

(** C5, as stated, fails: the outcome for the text "xyz" does not echo it. *)
Lemma unrecognized_not_echoed :
  ~ exists msg,
      dispatch SmartHome_init [Unrecognized "xyz"] = [msg]
      /\ has_kind UnsupportedAction msg = true
      /\ contains "xyz" msg = true.
Proof.
  intros (msg & Hm & _ & Hc).
  rewrite dispatch_single, step_unrecognized in Hm. simpl in Hm.
  injection Hm as <-. vm_compute in Hc. discriminate Hc.
Qed.

(** ** Fan [set] *)

(** The fan [set] request on the strings of this development, whose code
    points are below 256: it succeeds exactly when its parameter is one of
    off, low, medium, high up to the case of its letters, and the fan then
    has the speed of that name; any other such parameter is answered by the
    invalid fan speed error and leaves the registry as it was.  "HIGH" and
    "high" both give [HIGH]; "fast" is rejected.  This is not all of what
    the code accepts: [str.upper] also maps U+0131 to "I" and U+FB00 to
    "FF", so that the code sets the fan for two spellings of "high" and
    "off" that the strings here cannot hold. *)
Theorem fan_set_case_insensitive (h : SmartHome) (p : string) :
  match fan_speed_of_name p with
  | Some v =>
      dispatch h [SetParam DevFan p] = ["Fan speed set to " +:+ str_lower p]
      /\ is_error ("Fan speed set to " +:+ str_lower p) = false
      /\ final_home h [encode (SetParam DevFan p)] = with_fan h v
  | None =>
      dispatch h [SetParam DevFan p] = [fan_speed_error (str_lower p)]
      /\ has_kind InvalidParameter (fan_speed_error (str_lower p)) = true
      /\ final_home h [encode (SetParam DevFan p)] = h
  end
  /\ fan_speed_of_name "HIGH" = Some HIGH
  /\ fan_speed_of_name "high" = Some HIGH
  /\ fan_speed_of_name "fast" = None
  /\ dispatch h [SetParam DevFan "HIGH"] = ["Fan speed set to high"]
  /\ dispatch h [SetParam DevFan "high"] = ["Fan speed set to high"]
  /\ dispatch h [SetParam DevFan "fast"]
     = ["Error: Invalid fan speed 'fast'. Valid speeds are: OFF, LOW, MEDIUM, HIGH"].
Proof.
  split; [|split_and!; try reflexivity; by rewrite dispatch_single, step_set_fan].
  rewrite dispatch_single, final_home_single, step_set_fan, fan_lookup_spec.
  destruct (fan_speed_of_name p); split_and!; reflexivity.
Qed.

(** ** Status requests *)

(** C7: a status request changes nothing and reports the registry as it is
    when the request is reached: in any batch, its outcome is the status of
    the registry left by the requests before it, and the final registry is
    that of the batch without it.  In [TurnOn(light), GetStatus,
    TurnOff(light)] the report says the light is ON. *)
Theorem get_status_snapshot (h : SmartHome) (pre post : list dict) :
  final_home h [encode GetStatus] = h
  /\ outcomes h (pre ++ encode GetStatus :: post)
     = outcomes h pre ++ [status_text (final_home h pre)]
       ++ outcomes (final_home h pre) post
  /\ final_home h (pre ++ encode GetStatus :: post) = final_home h (pre ++ post)
  /\ dispatch h [TurnOn DevLight; GetStatus; TurnOff DevLight]
     = ["Light is now ON";
        "light: ON" +:+ nl +:+ "fan: " +:+ FanSpeed_value (Fan.speed (fan h)) +:+ nl
        +:+ "thermostat: " +:+ pretty (Thermostat.temperature (thermostat h))
        +:+ degree +:+ "C (" +:+ (if Thermostat.state (thermostat h) then "ON" else "OFF")
        +:+ ")";
        "Light is now OFF"]
  /\ final_home h (map encode [TurnOn DevLight; GetStatus; TurnOff DevLight])
     = with_light h false.
Proof.
  assert (Hs : forall h0, final_home h0 [encode GetStatus] = h0).
  { intros h0. by rewrite final_home_single, step_get_status. }
  assert (Ho : forall h0, outcomes h0 [encode GetStatus] = [status_text h0]).
  { intros h0. by rewrite outcomes_single, step_get_status. }
  split_and!.
  - apply Hs.
  - by rewrite outcomes_app, outcomes_cons, Ho, Hs.
  - by rewrite !final_home_app, final_home_cons, Hs.
  - unfold dispatch. cbn [map].
    rewrite outcomes_cons, (outcomes_cons _ (encode GetStatus)), Ho, Hs.
    rewrite !outcomes_single, !final_home_single, step_turn_on, step_turn_off.
    reflexivity.
  - cbn [map].
    rewrite final_home_cons, (final_home_cons _ (encode GetStatus)), Hs.
    rewrite !final_home_single, step_turn_on, step_turn_off. reflexivity.
Qed.

(** ** The thermostat invariant *)

Lemma final_home_preserves_inv (h : SmartHome) (cmds : list dict) :
  thermostat_inv h -> thermostat_inv (final_home h cmds).
Proof.
  revert h. induction cmds as [|c cmds IH]; intros h Hi; [done|].
  rewrite final_home_cons. apply IH.
  eapply handled_preserves_inv; [apply handled_single | done].
Qed.

(** C8: in every registry reached from the initial one by dispatching any
    batches of any requests, the temperature is within [18, 30]; and a
    thermostat that is still off still holds the default 22. *)
Theorem temperature_always_in_range (batches : list (list dict)) :
  18 <= Thermostat.temperature (thermostat (after_batches batches)) <= 30
  /\ (Thermostat.state (thermostat (after_batches batches)) = true
      \/ Thermostat.temperature (thermostat (after_batches batches)) = 22).
Proof.
  change (thermostat_inv (after_batches batches)). unfold after_batches.
  assert (Hi : thermostat_inv SmartHome_init) by (split; [simpl; lia | by right]).
  revert Hi. generalize SmartHome_init.
  induction batches as [|b batches IH]; intros h Hi; [done|].
  simpl. apply IH. by apply final_home_preserves_inv.
Qed.

(** ** Atomicity and frame *)

(** C9: a request whose processing produced an error response, whichever
    error it is, leaves the whole registry exactly as it was. *)
Theorem error_leaves_registry_unchanged (h : SmartHome) (parsed : dict) :
  request_fails h parsed = true -> final_home h [parsed] = h.
Proof. intros Hf. by apply failed_request_outcome in Hf as [? _]. Qed.

Lemma error_leaves_registry_unchanged_witness :
  request_fails SmartHome_init (encode (SetParam DevFan "fast")) = true
  /\ final_home SmartHome_init [encode (SetParam DevFan "fast")] = SmartHome_init.
Proof.
  split; [vm_compute; reflexivity|].
  apply (error_leaves_registry_unchanged SmartHome_init (encode (SetParam DevFan "fast"))).
  vm_compute; reflexivity.
Defined.

(** C10: a TurnOn, TurnOff or SetParam request that names device [d]
    leaves the two other devices exactly as they were. *)
Theorem device_request_frame (h : SmartHome) (d : DeviceKind) (p : string) :
  others_unchanged d h (final_home h [encode (TurnOn d)])
  /\ others_unchanged d h (final_home h [encode (TurnOff d)])
  /\ others_unchanged d h (final_home h [encode (SetParam d p)]).
Proof.
  rewrite !final_home_single, step_turn_on, step_turn_off.
  destruct d.
  - by rewrite step_set_light.
  - rewrite step_set_fan. by destruct (FanSpeed_getitem _).
  - rewrite step_set_thermostat. by repeat case_match.
Qed.

(** ** The same facts on arbitrary dictionaries *)

Lemma py_eq_unique (v : pyval) (a b : string) :
  py_eq v a = true -> py_eq v b = true -> a = b.
Proof.
  destruct v; simpl; try discriminate.
  intros Ha%String.eqb_eq Hb%String.eqb_eq. congruence.
Qed.

Ltac clash :=
  match goal with
  | H1 : py_eq ?v ?a = true, H2 : py_eq ?v ?b = true |- _ =>
      pose proof (py_eq_unique v a b H1 H2); discriminate
  | H1 : py_eq ?v ?a = true, H2 : py_eq ?v ?a = false |- _ => congruence
  end.

(** [get_status] ignores the device field and everything else of the
    request. *)
Lemma raw_get_status (h : SmartHome) (c : dict) :
  py_eq (dict_get c "action") "get_status" = true ->
  final_home h [c] = h /\ outcomes h [c] = [status_text h].
Proof.
  intros Ha. destruct (handled_single h c); try (split; reflexivity); exfalso; clash.
Qed.

(** A request on the light, whatever its action and parameter, leaves the
    fan and the thermostat alone; likewise for the two other devices. *)
Lemma raw_request_frame (h : SmartHome) (c : dict) (d : DeviceKind) :
  py_eq (dict_get c "device") (device_name d) = true ->
  py_eq (dict_get c "action") "get_status" = false ->
  others_unchanged d h (final_home h [c]).
Proof.
  intros Hd Ha.
  destruct (handled_single h c); destruct d; simpl in Hd;
    first [done | exfalso; clash].
Qed.

(** * Further properties of [handle_command] *)

(** ** The shape of a request *)

Ltac shape_leaf Hstep :=
  first
  [ apply shape_status; [by side_condition | exact Hstep]
  | apply shape_silent; [by side_condition | exact Hstep]
  | eapply shape_failure; cycle 2;
      [exact Hstep | by side_condition | reflexivity]
  | eapply (shape_success _ (SetLight _) DevLight); cycle 4;
      [exact Hstep | by side_condition | by side_condition | reflexivity | reflexivity]
  | eapply (shape_success _ (SetFan _) DevFan); cycle 4;
      [exact Hstep | by side_condition | by side_condition | reflexivity | reflexivity]
  | eapply (shape_success _ (SetThermostat _) DevThermostat); cycle 4;
      [exact Hstep | by side_condition | by side_condition | reflexivity | reflexivity] ].

Lemma step_shape (c : dict) : shape c.
Proof.
  assert (Hstep : forall h, step c h
            = let w := snd (loop_body c (mkWorld h [])) in (home w, responses w))
    by reflexivity.
  revert Hstep. run_monad. unfold dict_get_default.
  change (dict_get c "param") with (default PNone (c !! "param")).
  destruct (dict_get c "device") as [|b|z|dv] eqn:Hd;
  destruct (dict_get c "action") as [|b'|z'|ac] eqn:Ha; simpl.
  all: split_tests.
  all: intros Hstep.
  all: shape_leaf Hstep.
Qed.

Lemma step_pair (h : SmartHome) (c : dict) :
  step c h = (final_home h [c], outcomes h [c]).
Proof. rewrite final_home_single, outcomes_single. by destruct (step c h). Qed.

Lemma final_home_two (h : SmartHome) (c1 c2 : dict) :
  final_home h [c1; c2] = fst (step c2 (fst (step c1 h))).
Proof. by rewrite final_home_cons, !final_home_single. Qed.

Lemma outcomes_two (h : SmartHome) (c1 c2 : dict) :
  outcomes h [c1; c2] = snd (step c1 h) ++ snd (step c2 (fst (step c1 h))).
Proof. by rewrite outcomes_cons, !outcomes_single, final_home_single. Qed.

Lemma apply_effect_idempotent (e : effect) (h : SmartHome) :
  apply_effect e (apply_effect e h) = apply_effect e h.
Proof. by destruct e. Qed.

(** X1: sending the same request twice in a row leaves the registry as
    after sending it once, and the second response is the first again. *)
Theorem request_idempotent (h : SmartHome) (c : dict) :
  final_home h [c; c] = final_home h [c]
  /\ outcomes h [c; c] = outcomes h [c] ++ outcomes h [c].
Proof.
  rewrite final_home_two, outcomes_two, final_home_single, outcomes_single.
  destruct (step_shape c) as [_ E|_ E|err _ _ E|e d msg _ _ _ _ E];
    rewrite !E; simpl; rewrite ?E; simpl; rewrite ?apply_effect_idempotent; done.
Qed.

(** X2: what a request other than [get_status] is answered does not depend
    on the registry: validation looks at the request alone. *)
Theorem outcome_independent_of_registry (h h' : SmartHome) (c : dict) :
  py_eq (dict_get c "action") "get_status" = false ->
  outcomes h [c] = outcomes h' [c].
Proof.
  intros Ha. rewrite !outcomes_single.
  destruct (step_shape c) as [Hs E|_ E|err _ _ E|e d msg _ _ _ _ E];
    [congruence|by rewrite !E..].
Qed.

Lemma outcome_independent_of_registry_witness :
  let c := encode (SetParam DevThermostat "21") in
  let h' := final_home SmartHome_init [encode (TurnOn DevFan)] in
  py_eq (dict_get c "action") "get_status" = false
  /\ outcomes SmartHome_init [c] = outcomes h' [c].
Proof.
  cbv zeta. split; [vm_compute; reflexivity|].
  apply (outcome_independent_of_registry SmartHome_init
           (final_home SmartHome_init [encode (TurnOn DevFan)])
           (encode (SetParam DevThermostat "21"))).
  vm_compute; reflexivity.
Defined.

Lemma device_name_inj (d d' : DeviceKind) : device_name d = device_name d' -> d = d'.
Proof. by destruct d, d'. Qed.

(** The effect of a request that names device [d] is nothing or an
    assignment to [d]. *)
Lemma step_effect_on (c : dict) (d : DeviceKind) :
  py_eq (dict_get c "device") (device_name d) = true ->
  exists e, (e = Keep \/ effect_on e d = true)
            /\ forall h, fst (step c h) = apply_effect e h.
Proof.
  intros Hd.
  destruct (step_shape c) as [_ E|_ E|err _ _ E|e d' msg _ Hd' He _ E].
  1-3: exists Keep; split; [by left | intros h; by rewrite E].
  exists e. split; [right | intros h; by rewrite E].
  by rewrite (device_name_inj _ _ (py_eq_unique _ _ _ Hd Hd')).
Qed.

(** X3: requests that name different devices commute: the registry after
    the two does not depend on their order. *)
Theorem different_devices_commute
    (h : SmartHome) (c1 c2 : dict) (d1 d2 : DeviceKind) :
  py_eq (dict_get c1 "device") (device_name d1) = true ->
  py_eq (dict_get c2 "device") (device_name d2) = true ->
  d1 <> d2 ->
  final_home h [c1; c2] = final_home h [c2; c1].
Proof.
  intros H1 H2 Hne. rewrite !final_home_two.
  destruct (step_effect_on c1 d1 H1) as (e1 & K1 & E1).
  destruct (step_effect_on c2 d2 H2) as (e2 & K2 & E2).
  rewrite !E1, !E2.
  destruct K1 as [->|K1]; [done|]. destruct K2 as [->|K2]; [done|].
  destruct e1, e2, d1, d2; try discriminate; done.
Qed.

Lemma different_devices_commute_witness :
  let c1 := encode (SetParam DevFan "medium") in
  let c2 := encode (SetParam DevThermostat "19") in
  py_eq (dict_get c1 "device") (device_name DevFan) = true
  /\ py_eq (dict_get c2 "device") (device_name DevThermostat) = true
  /\ DevFan <> DevThermostat
  /\ final_home SmartHome_init [c1; c2] = final_home SmartHome_init [c2; c1].
Proof.
  cbv zeta.
  assert (H1 : py_eq (dict_get (encode (SetParam DevFan "medium")) "device")
                 (device_name DevFan) = true) by (vm_compute; reflexivity).
  assert (H2 : py_eq (dict_get (encode (SetParam DevThermostat "19")) "device")
                 (device_name DevThermostat) = true) by (vm_compute; reflexivity).
  assert (H3 : DevFan <> DevThermostat) by discriminate.
  split_and!; [exact H1 | exact H2 | exact H3 |].
  exact (different_devices_commute SmartHome_init _ _ DevFan DevThermostat H1 H2 H3).
Defined.

(** X4: the last confirmed request on a device wins: when a request on
    device [d] is confirmed, whatever an earlier request on [d] did to the
    registry is overwritten. *)
Theorem last_request_wins
    (h : SmartHome) (c1 c2 : dict) (d : DeviceKind) (msg : string) :
  py_eq (dict_get c1 "device") (device_name d) = true ->
  py_eq (dict_get c2 "device") (device_name d) = true ->
  py_eq (dict_get c2 "action") "get_status" = false ->
  outcomes h [c2] = [msg] -> is_error msg = false ->
  final_home h [c1; c2] = final_home h [c2].
Proof.
  intros H1 H2 Ha Ho Hm. rewrite final_home_two, final_home_single.
  destruct (step_effect_on c1 d H1) as (e1 & K1 & E1). rewrite E1.
  rewrite outcomes_single in Ho.
  destruct (step_shape c2) as [Hs E|_ E|err _ He E|e d' m _ Hd' Hon _ E].
  - congruence.
  - by rewrite E in Ho.
  - rewrite E in Ho. simpl in Ho. congruence.
  - rewrite !E. simpl.
    rewrite <- (device_name_inj _ _ (py_eq_unique _ _ _ H2 Hd')) in Hon.
    destruct K1 as [->|K1]; [done|].
    destruct e1, e, d; try discriminate; done.
Qed.

Lemma last_request_wins_witness :
  let h := SmartHome_init in
  let c1 := encode (SetParam DevFan "high") in
  let c2 := encode (TurnOn DevFan) in
  py_eq (dict_get c1 "device") (device_name DevFan) = true
  /\ py_eq (dict_get c2 "device") (device_name DevFan) = true
  /\ py_eq (dict_get c2 "action") "get_status" = false
  /\ outcomes h [c2] = ["Fan is now ON (set to low)"]
  /\ is_error "Fan is now ON (set to low)" = false
  /\ final_home h [c1; c2] = final_home h [c2].
Proof.
  cbv zeta.
  assert (H1 : py_eq (dict_get (encode (SetParam DevFan "high")) "device")
                 (device_name DevFan) = true) by (vm_compute; reflexivity).
  assert (H2 : py_eq (dict_get (encode (TurnOn DevFan)) "device")
                 (device_name DevFan) = true) by (vm_compute; reflexivity).
  assert (H3 : py_eq (dict_get (encode (TurnOn DevFan)) "action") "get_status" = false)
    by (vm_compute; reflexivity).
  assert (H4 : outcomes SmartHome_init [encode (TurnOn DevFan)]
               = ["Fan is now ON (set to low)"]) by (vm_compute; reflexivity).
  assert (H5 : is_error "Fan is now ON (set to low)" = false) by reflexivity.
  split_and!; [exact H1 | exact H2 | exact H3 | exact H4 | exact H5 |].
  exact (last_request_wins SmartHome_init _ _ DevFan _ H1 H2 H3 H4 H5).
Defined.

(** ** Edge cases of one request *)

Ltac unfold_step :=
  rewrite ?outcomes_single, ?final_home_single;
  unfold step, loop_body, try_except, try_block, dict_get_default.

(** X5: for arbitrary dictionaries too, a request is answered at most once:
    a batch never has more responses than requests. *)
Theorem at_most_one_response_each (h : SmartHome) (cmds : list dict) :
  (length (outcomes h cmds) <= length cmds)%nat.
Proof.
  revert h. induction cmds as [|c cmds IH]; intros h; [done|].
  rewrite outcomes_cons, length_app. simpl.
  specialize (IH (final_home h [c])).
  destruct (handled_at_most_one _ _ _ _ (handled_single h c)) as [->|[m ->]];
    simpl; lia.
Qed.

(** X6: the guard on the device comes first: a request whose device is
    missing, null, empty, zero or false, and whose action is not
    [get_status], is answered "Error: Could not understand the command."
    whatever its action and parameter are, and changes nothing. *)
Theorem request_without_device (h : SmartHome) (c : dict) :
  py_not (dict_get c "device") = true ->
  py_eq (dict_get c "action") "get_status" = false ->
  outcomes h [c] = ["Error: Could not understand the command."]
  /\ final_home h [c] = h.
Proof. intros Hd Ha. unfold_step. by rewrite Hd, Ha. Qed.

Lemma request_without_device_witness :
  let c : dict := {[ "action" := PStr "turn_on"; "device" := PStr "" ]} in
  py_not (dict_get c "device") = true
  /\ py_eq (dict_get c "action") "get_status" = false
  /\ outcomes SmartHome_init [c] = ["Error: Could not understand the command."]
  /\ final_home SmartHome_init [c] = SmartHome_init.
Proof.
  cbv zeta.
  assert (H1 : py_not (dict_get ({[ "action" := PStr "turn_on"; "device" := PStr "" ]} : dict)
                         "device") = true) by (vm_compute; reflexivity).
  assert (H2 : py_eq (dict_get ({[ "action" := PStr "turn_on"; "device" := PStr "" ]} : dict)
                        "action") "get_status" = false) by (vm_compute; reflexivity).
  split; [exact H1|]. split; [exact H2|].
  exact (request_without_device SmartHome_init _ H1 H2).
Defined.

(** X7: a request with a device that is none of light, fan, thermostat, or
    with an action that is none of turn_on, turn_off, set, get_status, is
    ignored without a word: no response, no change. *)
Theorem unknown_device_or_action_ignored (h : SmartHome) (c : dict) :
  py_not (dict_get c "device") = false ->
  py_eq (dict_get c "action") "get_status" = false ->
  (forall d, py_eq (dict_get c "device") (device_name d) = false)
  \/ (py_eq (dict_get c "action") "turn_on" = false
      /\ py_eq (dict_get c "action") "turn_off" = false
      /\ py_eq (dict_get c "action") "set" = false) ->
  outcomes h [c] = [] /\ final_home h [c] = h.
Proof.
  intros Hd Ha [Hu|(H1 & H2 & H3)]; unfold_step; rewrite Hd, Ha.
  - pose proof (Hu DevLight) as L. pose proof (Hu DevFan) as F.
    pose proof (Hu DevThermostat) as T. simpl in L, F, T.
    by rewrite L, F, T.
  - rewrite H1, H2, H3.
    by destruct (py_eq (dict_get c "device") "light"),
      (py_eq (dict_get c "device") "fan"), (py_eq (dict_get c "device") "thermostat").
Qed.

Lemma unknown_device_or_action_ignored_witness :
  let c : dict := {[ "action" := PStr "turn_on"; "device" := PStr "tv" ]} in
  py_not (dict_get c "device") = false
  /\ py_eq (dict_get c "action") "get_status" = false
  /\ ((forall d, py_eq (dict_get c "device") (device_name d) = false)
      \/ (py_eq (dict_get c "action") "turn_on" = false
          /\ py_eq (dict_get c "action") "turn_off" = false
          /\ py_eq (dict_get c "action") "set" = false))
  /\ outcomes SmartHome_init [c] = [] /\ final_home SmartHome_init [c] = SmartHome_init.
Proof.
  cbv zeta.
  set (c := ({[ "action" := PStr "turn_on"; "device" := PStr "tv" ]} : dict)).
  assert (H1 : py_not (dict_get c "device") = false) by (vm_compute; reflexivity).
  assert (H2 : py_eq (dict_get c "action") "get_status" = false) by (vm_compute; reflexivity).
  assert (H3 : (forall d, py_eq (dict_get c "device") (device_name d) = false)
      \/ (py_eq (dict_get c "action") "turn_on" = false
          /\ py_eq (dict_get c "action") "turn_off" = false
          /\ py_eq (dict_get c "action") "set" = false)).
  { left. intros d. destruct d; vm_compute; reflexivity. }
  split; [exact H1|]. split; [exact H2|]. split; [exact H3|].
  exact (unknown_device_or_action_ignored SmartHome_init c H1 H2 H3).
Defined.

(** X8: a fan [set] whose parameter is not a string.  With no "param" key
    the empty string is looked up and the invalid-speed error names it; with
    a JSON null, boolean or number, [.lower()] raises and the generic
    handler answers.  Neither changes the registry. *)
Theorem fan_set_without_string (h : SmartHome) (c : dict) :
  dict_get c "device" = PStr "fan" ->
  dict_get c "action" = PStr "set" ->
  match c !! "param" with
  | None =>
      outcomes h [c]
      = ["Error: Invalid fan speed ''. Valid speeds are: OFF, LOW, MEDIUM, HIGH"]
      /\ final_home h [c] = h
  | Some (PStr _) => True
  | Some v =>
      outcomes h [c]
      = ["Error processing command: '" +:+ type_name v
         +:+ "' object has no attribute 'lower'"]
      /\ final_home h [c] = h
  end.
Proof.
  intros Hd Ha. unfold_step. rewrite Hd, Ha.
  by destruct (c !! "param") as [[| | |]|].
Qed.

Lemma fan_set_without_string_witness :
  let c : dict := {[ "action" := PStr "set"; "device" := PStr "fan"; "param" := PNone ]} in
  dict_get c "device" = PStr "fan"
  /\ dict_get c "action" = PStr "set"
  /\ outcomes SmartHome_init [c]
     = ["Error processing command: 'NoneType' object has no attribute 'lower'"]
  /\ final_home SmartHome_init [c] = SmartHome_init.
Proof.
  cbv zeta.
  set (c := ({[ "action" := PStr "set"; "device" := PStr "fan"; "param" := PNone ]} : dict)).
  assert (H1 : dict_get c "device" = PStr "fan") by (vm_compute; reflexivity).
  assert (H2 : dict_get c "action" = PStr "set") by (vm_compute; reflexivity).
  split; [exact H1|]. split; [exact H2|].
  pose proof (fan_set_without_string SmartHome_init c H1 H2) as H.
  assert (Hp : c !! "param" = Some PNone) by (vm_compute; reflexivity).
  rewrite Hp in H. exact H.
Defined.

(** X9: a thermostat [set] whose parameter is not a string.  A missing or
    null parameter is an invalid temperature value; a JSON number or
    boolean, even an integer in range, has no [isdigit], so the generic
    handler answers and the temperature is not set. *)
Theorem thermostat_set_without_string (h : SmartHome) (c : dict) :
  dict_get c "device" = PStr "thermostat" ->
  dict_get c "action" = PStr "set" ->
  match dict_get c "param" with
  | PNone =>
      outcomes h [c] = ["Error: Invalid temperature value."]
      /\ final_home h [c] = h
  | PStr _ => True
  | v =>
      outcomes h [c]
      = ["Error processing command: '" +:+ type_name v
         +:+ "' object has no attribute 'isdigit'"]
      /\ final_home h [c] = h
  end.
Proof.
  intros Hd Ha. unfold_step. rewrite Hd, Ha.
  by destruct (dict_get c "param").
Qed.

Lemma thermostat_set_without_string_witness :
  let c : dict :=
    {[ "action" := PStr "set"; "device" := PStr "thermostat"; "param" := PInt 24 ]} in
  dict_get c "device" = PStr "thermostat"
  /\ dict_get c "action" = PStr "set"
  /\ outcomes SmartHome_init [c]
     = ["Error processing command: 'int' object has no attribute 'isdigit'"]
  /\ final_home SmartHome_init [c] = SmartHome_init.
Proof.
  cbv zeta.
  set (c := ({[ "action" := PStr "set"; "device" := PStr "thermostat";
                "param" := PInt 24 ]} : dict)).
  assert (H1 : dict_get c "device" = PStr "thermostat") by (vm_compute; reflexivity).
  assert (H2 : dict_get c "action" = PStr "set") by (vm_compute; reflexivity).
  split; [exact H1|]. split; [exact H2|].
  pose proof (thermostat_set_without_string SmartHome_init c H1 H2) as H.
  assert (Hp : dict_get c "param" = PInt 24) by (vm_compute; reflexivity).
  rewrite Hp in H. exact H.
Defined.

(** ** What never happens *)

(** X10: nothing turns the thermostat off: once it is on it stays on,
    whatever requests follow. *)
Theorem thermostat_stays_on (h : SmartHome) (cmds : list dict) :
  Thermostat.state (thermostat h) = true ->
  Thermostat.state (thermostat (final_home h cmds)) = true.
Proof.
  revert h. induction cmds as [|c cmds IH]; intros h Hon; [done|].
  rewrite final_home_cons. apply IH.
  by destruct (handled_single h c).
Qed.

Lemma thermostat_stays_on_witness :
  let h := final_home SmartHome_init [encode (SetParam DevThermostat "25")] in
  let cmds := [encode (TurnOff DevThermostat); encode (SetParam DevThermostat "99")] in
  Thermostat.state (thermostat h) = true
  /\ Thermostat.state (thermostat (final_home h cmds)) = true.
Proof.
  cbv zeta. split; [vm_compute; reflexivity|].
  apply (thermostat_stays_on
           (final_home SmartHome_init [encode (SetParam DevThermostat "25")])
           [encode (TurnOff DevThermostat); encode (SetParam DevThermostat "99")]).
  vm_compute; reflexivity.
Defined.

Lemma handled_responses_nonempty (c : dict) (h h' : SmartHome) (rs : list string) :
  handled c h h' rs -> Forall (fun m => m <> "") rs.
Proof. destruct 1; repeat constructor; discriminate. Qed.

Lemma outcomes_nonempty (h : SmartHome) (cmds : list dict) :
  Forall (fun m => m <> "") (outcomes h cmds).
Proof.
  revert h. induction cmds as [|c cmds IH]; intros h; [constructor|].
  rewrite outcomes_cons. apply Forall_app. split; [|apply IH].
  eapply handled_responses_nonempty, handled_single.
Qed.

Lemma concat_empty (sep : string) (l : list string) :
  Forall (fun m => m <> "") l -> String.concat sep l = "" -> l = [].
Proof.
  destruct l as [|x l]; [done|]. intros Hl. inversion Hl as [|? ? Hx _]; subst.
  destruct x as [|a x]; [done|]. destruct l; simpl; discriminate.
Qed.

Lemma no_outcome_no_change (h : SmartHome) (cmds : list dict) :
  outcomes h cmds = [] -> final_home h cmds = h.
Proof.
  revert h. induction cmds as [|c cmds IH]; intros h Ho; [done|].
  rewrite outcomes_cons in Ho. apply app_eq_nil in Ho as [H1 H2].
  pose proof (handled_single h c) as Hh. rewrite H1 in Hh.
  apply handled_silent_unchanged in Hh.
  rewrite final_home_cons, Hh. apply IH. by rewrite Hh in H2.
Qed.

(** X11: [handle_command] returns the empty string only when no request was
    answered, and then it has changed nothing: a silent batch is a batch
    without effect. *)
Theorem empty_reply_means_no_change (h : SmartHome) (cmds : list dict) :
  fst (handle_command h cmds) = Return "" ->
  outcomes h cmds = [] /\ snd (handle_command h cmds) = h.
Proof.
  unfold handle_command. rewrite for_each_world. simpl. intros [= E].
  apply concat_empty in E; [|apply outcomes_nonempty].
  split; [done | by apply no_outcome_no_change].
Qed.

Lemma empty_reply_means_no_change_witness :
  let cmds := [encode (SetParam DevLight "dim"); encode (TurnOn DevThermostat)] in
  fst (handle_command SmartHome_init cmds) = Return ""
  /\ outcomes SmartHome_init cmds = []
  /\ snd (handle_command SmartHome_init cmds) = SmartHome_init.
Proof.
  cbv zeta. split; [vm_compute; reflexivity|].
  apply (empty_reply_means_no_change SmartHome_init
           [encode (SetParam DevLight "dim"); encode (TurnOn DevThermostat)]).
  vm_compute; reflexivity.
Defined.

(** ** Thermostat parameters with leading zeros *)

Lemma zeros_list (n : nat) (s : string) :
  list_ascii_of_string (zeros n +:+ s)
  = repeat "0"%char n ++ list_ascii_of_string s.
Proof. induction n as [|n IH]; simpl; [done | by rewrite IH]. Qed.

(** X12: leading zeros do not matter to a thermostat [set], as long as
    [int] still converts the string: a non-empty string of decimal digits
    and the same string with zeros in front, of at most 4300 characters
    together, are answered alike and leave the same registry (so "0024"
    sets 24 and the confirmation says 24). *)
Theorem leading_zeros_ignored (h : SmartHome) (n : nat) (s : string) :
  s <> "" ->
  forallb char_isdecimal (list_ascii_of_string s) = true ->
  Z.of_nat (n + String.length s) <= int_max_str_digits ->
  dispatch h [SetParam DevThermostat (zeros n +:+ s)]
  = dispatch h [SetParam DevThermostat s]
  /\ final_home h [encode (SetParam DevThermostat (zeros n +:+ s))]
     = final_home h [encode (SetParam DevThermostat s)].
Proof.
  intros Hne Hdec Hlen.
  rewrite !dispatch_single, !final_home_single, !step_set_thermostat.
  assert (Hd : forallb char_isdecimal (list_ascii_of_string (zeros n +:+ s)) = true).
  { rewrite zeros_list, forallb_app, Hdec, andb_true_r.
    clear. by induction n. }
  assert (Hv : int_of_digits (zeros n +:+ s) = int_of_digits s).
  { unfold int_of_digits. rewrite zeros_list, fold_left_app. f_equal.
    clear. by induction n. }
  assert (Hi : forall t, t <> "" ->
            forallb char_isdecimal (list_ascii_of_string t) = true ->
            str_isdigit t = true).
  { intros t Ht Hdt. unfold str_isdigit. destruct t as [|a t]; [done|].
    by apply decimal_isdigit. }
  assert (Hz : String.length (zeros n +:+ s) = (n + String.length s)%nat).
  { clear. induction n as [|n IH]; simpl; [done | by rewrite IH]. }
  rewrite (Hi s Hne Hdec), Hd, Hdec, Hv, Hi; [| |done].
  - rewrite !int_of_str_short, Hv; [done | lia | lia].
  - destruct n; [done | discriminate].
Qed.

Lemma leading_zeros_ignored_witness :
  "24" <> ""
  /\ forallb char_isdecimal (list_ascii_of_string "24") = true
  /\ Z.of_nat (2 + String.length "24") <= int_max_str_digits
  /\ dispatch SmartHome_init [SetParam DevThermostat "0024"]
     = dispatch SmartHome_init [SetParam DevThermostat "24"]
  /\ final_home SmartHome_init [encode (SetParam DevThermostat "0024")]
     = final_home SmartHome_init [encode (SetParam DevThermostat "24")].
Proof.
  assert (H1 : "24" <> "") by discriminate.
  assert (H2 : forallb char_isdecimal (list_ascii_of_string "24") = true) by reflexivity.
  assert (H3 : Z.of_nat (2 + String.length "24") <= int_max_str_digits)
    by (unfold int_max_str_digits; simpl; lia).
  split; [exact H1|]. split; [exact H2|]. split; [exact H3|].
  exact (leading_zeros_ignored SmartHome_init 2 "24" H1 H2 H3).
Defined.

(** ** A confirmed fan speed and the status *)

Lemma lower_is_fold_char (c : ascii) : lower_is_fold c = true.
Proof. destruct c as [[] [] [] [] [] [] [] []]; vm_compute; reflexivity. Qed.

Lemma lower_of_fold (s t : string) :
  forallb name_char (list_ascii_of_string t) = true ->
  fold_case s = t -> str_lower s = t.
Proof.
  revert t. induction s as [|c s IH]; intros t Ht E; [done|].
  change (fold_case (String c s)) with (String (ascii_fold c) (fold_case s)) in E.
  change (str_lower (String c s)) with (String (char_lower c) (str_lower s)).
  destruct t as [|x t]; [done|]. injection E as E1 E2.
  simpl in Ht. apply andb_true_iff in Ht as [Hx Ht].
  f_equal; [|by apply IH].
  pose proof (lower_is_fold_char c) as Hc. unfold lower_is_fold in Hc.
  rewrite E1 in Hc. unfold name_char in Hx. apply andb_true_iff in Hx as [Hx _].
  rewrite Hx in Hc. by apply Ascii.eqb_eq in Hc.
Qed.

Lemma fan_value_is_lowered (p : string) (v : FanSpeed) :
  fan_speed_of_name p = Some v -> FanSpeed_value v = str_lower p.
Proof.
  unfold fan_speed_of_name.
  repeat match goal with
  | |- context [String.eqb (fold_case p) ?t] =>
      destruct (String.eqb_spec (fold_case p) t) as [E|_];
      [intros [= <-]; symmetry; by apply lower_of_fold|]
  end.
  discriminate.
Qed.

(** X13: for a parameter of ASCII characters, what a confirmed fan [set]
    echoes is what the status then shows: when the request is not answered
    by an error, the confirmation names the lower-cased parameter and
    [get_status()["fan"]] is that same text. *)
Theorem fan_confirmation_matches_status (h : SmartHome) (p : string) :
  is_ascii p = true ->
  request_fails h (encode (SetParam DevFan p)) = false ->
  dispatch h [SetParam DevFan p] = ["Fan speed set to " +:+ str_lower p]
  /\ status_item (final_home h [encode (SetParam DevFan p)]) "fan"
     = Some (str_lower p).
Proof.
  intros _. unfold request_fails.
  rewrite dispatch_single, final_home_single, outcomes_single, step_set_fan,
    fan_lookup_spec.
  destruct (fan_speed_of_name p) as [v|] eqn:E; simpl.
  - intros _. split; [done|]. unfold status_item. simpl.
    f_equal. by apply fan_value_is_lowered.
  - intros H. discriminate H.
Qed.

Lemma fan_confirmation_matches_status_witness :
  is_ascii "MeDiUm" = true
  /\ request_fails SmartHome_init (encode (SetParam DevFan "MeDiUm")) = false
  /\ dispatch SmartHome_init [SetParam DevFan "MeDiUm"] = ["Fan speed set to medium"]
  /\ status_item (final_home SmartHome_init [encode (SetParam DevFan "MeDiUm")]) "fan"
     = Some "medium".
Proof.
  split; [vm_compute; reflexivity|]. split; [vm_compute; reflexivity|].
  apply (fan_confirmation_matches_status SmartHome_init "MeDiUm");
    vm_compute; reflexivity.
Defined.

(** ** The status text identifies the registry *)

Lemma append_String (a : ascii) (x y : string) : String a x +:+ y = String a (x +:+ y).
Proof. reflexivity. Qed.

Lemma append_Empty (y : string) : "" +:+ y = y.
Proof. reflexivity. Qed.

(** A separator that occurs in neither prefix splits in one way only. *)
Lemma append_separator_inj (c : ascii) (x x' a b : string) :
  forallb (fun y => negb (Ascii.eqb y c)) (list_ascii_of_string x) = true ->
  forallb (fun y => negb (Ascii.eqb y c)) (list_ascii_of_string x') = true ->
  x +:+ String c a = x' +:+ String c b -> x = x' /\ a = b.
Proof.
  revert x'. induction x as [|y x IH]; intros [|y' x'] Hx Hx' E;
    rewrite ?append_String, ?append_Empty in E; simpl in Hx, Hx'.
  - by injection E.
  - injection E as <- _. by rewrite Ascii.eqb_refl in Hx'.
  - injection E as -> _. by rewrite Ascii.eqb_refl in Hx.
  - injection E as <- E.
    apply andb_true_iff in Hx as [_ Hx]. apply andb_true_iff in Hx' as [_ Hx'].
    destruct (IH x' Hx Hx' E) as [-> ->]. done.
Qed.

Lemma decimal_not_char (c : ascii) (l : list ascii) :
  char_isdecimal c = false ->
  forallb char_isdecimal l = true ->
  forallb (fun y => negb (Ascii.eqb y c)) l = true.
Proof.
  intros Hc. induction l as [|a l IH]; [done|].
  cbn [forallb]. intros [Ha Hl]%andb_true_iff. rewrite (IH Hl), andb_true_r.
  destruct (Ascii.eqb_spec a c) as [->|]; [congruence | done].
Qed.

Lemma pretty_without (c : ascii) (t : Z) :
  char_isdecimal c = false -> c <> "-"%char ->
  forallb (fun y => negb (Ascii.eqb y c)) (list_ascii_of_string (pretty t)) = true.
Proof.
  intros Hc Hm. destruct (Z.lt_ge_cases t 0) as [Hneg|Hpos].
  - destruct t as [|p|p]; [lia|lia|].
    change (pretty (Z.neg p)) with (String "-" (pretty (Z.pos p))).
    cbn [list_ascii_of_string forallb].
    rewrite decimal_not_char; [|done|apply (pretty_nonneg (Z.pos p)); lia].
    rewrite andb_true_r. by destruct (Ascii.eqb_spec "-" c) as [<-|].
  - by apply decimal_not_char, pretty_nonneg.
Qed.

Lemma status_text_unfold (h : SmartHome) :
  status_text h
  = "light: " +:+ (if Light.state (light h) then "ON" else "OFF") +:+ nl
    +:+ "fan: " +:+ FanSpeed_value (Fan.speed (fan h)) +:+ nl
    +:+ "thermostat: " +:+ pretty (Thermostat.temperature (thermostat h))
    +:+ String (ascii_of_N 176)
          ("C (" +:+ (if Thermostat.state (thermostat h) then "ON" else "OFF") +:+ ")").
Proof. reflexivity. Qed.

Ltac peel E :=
  unfold nl in E; simpl FanSpeed_value in E;
  repeat (rewrite ?append_String, ?append_Empty in E;
          first [discriminate E | injection E as E]).

(** X14: the status text identifies the registry: two registries with the
    same status text are the same registry. *)
Theorem status_text_injective (h h' : SmartHome) :
  status_text h = status_text h' -> h = h'.
Proof.
  rewrite !status_text_unfold.
  destruct h as [[l] [f] [t s]], h' as [[l'] [f'] [t' s']]. simpl.
  intros E.
  assert (l = l' /\ f = f'
          /\ pretty t +:+ String (ascii_of_N 176)
               ("C (" +:+ (if s then "ON" else "OFF") +:+ ")")
             = pretty t' +:+ String (ascii_of_N 176)
                 ("C (" +:+ (if s' then "ON" else "OFF") +:+ ")")) as (-> & -> & E').
  { destruct l, l', f, f'; peel E; done. }
  apply append_separator_inj in E' as [Et Es]; [|by apply pretty_without..].
  apply (inj pretty) in Et as ->.
  destruct s, s'; peel Es; done.
Qed.

Lemma status_text_injective_witness :
  let h := final_home SmartHome_init [encode (TurnOn DevLight); encode (TurnOff DevLight)] in
  status_text h = status_text SmartHome_init /\ h = SmartHome_init.
Proof.
  cbv zeta.
  assert (H : status_text (final_home SmartHome_init
                 [encode (TurnOn DevLight); encode (TurnOff DevLight)])
              = status_text SmartHome_init) by (vm_compute; reflexivity).
  split; [exact H|].
  exact (status_text_injective _ _ H).
Defined.

(** * The dummy parser and the interactive loop *)

Lemma handle_command_eq (h : SmartHome) (cmds : list dict) :
  handle_command h cmds
  = (Return (String.concat nl (outcomes h cmds)), final_home h cmds).
Proof. unfold handle_command. by rewrite for_each_world. Qed.

Ltac parse_cases command :=
  unfold parse_command;
  repeat match goal with
  | |- context [String.eqb (str_lower command) ?t] =>
      destruct (String.eqb (str_lower command) t) eqn:?
  end; cbn [fst snd].

(** The list the dummy parser returns, as action requests. *)
Lemma parse_command_requests (command : string) :
  exists reqs,
    snd (parse_command command) = map encode reqs
    /\ dummy_requests reqs
    /\ forallb listed reqs = true
    /\ (knows command = false -> reqs = [Unrecognized command]).
Proof.
  unfold knows, dummy_sentences, parse_command, dummy_requests. cbn [existsb].
  destruct (String.eqb _ "turn on the light");
    [exists [TurnOn DevLight]; split_and!; [done|tauto|done|done]|].
  destruct (String.eqb _ "set the fan speed to high");
    [exists [SetParam DevFan "high"]; split_and!; [done|tauto|done|done]|].
  destruct (String.eqb _ "set the thermostat to 24");
    [exists [SetParam DevThermostat "24"]; split_and!; [done|tauto|done|done]|].
  destruct (String.eqb _ "get the status");
    [exists [GetStatus]; split_and!; [done|tauto|done|done]|].
  destruct (String.eqb _ "turn off the light and set temperature to 20");
    [exists [TurnOff DevLight; SetParam DevThermostat "20"];
     split_and!; [done|tauto|done|done]|].
  destruct (String.eqb _ "invalid command");
    [exists []; split_and!; [done|tauto|done|done]|].
  exists [Unrecognized command]; split_and!; [done| |done|done].
  do 6 right. by eexists.
Qed.

(** X15: whatever is typed, the dummy parser returns requests of handled
    device/action combinations only, so [handle_command] answers each of
    them exactly once: in testing mode nothing is ignored in silence. *)
Theorem dummy_parser_is_always_answered (h : SmartHome) (command : string) :
  (exists reqs, snd (parse_command command) = map encode reqs
                /\ forallb listed reqs = true)
  /\ length (outcomes h (snd (parse_command command)))
     = length (snd (parse_command command)).
Proof.
  destruct (parse_command_requests command) as (reqs & E & _ & Hl & _).
  split; [by exists reqs|].
  rewrite E, length_map. by apply dispatch_listed_length.
Qed.

(** X16: the dummy parser ignores the case of the letters: two commands
    with the same lower-case form give the same requests, unless neither is
    a known sentence and each comes back as its own unknown command. *)
Theorem dummy_parser_ignores_case (c1 c2 : string) :
  str_lower c1 = str_lower c2 ->
  snd (parse_command c1) = snd (parse_command c2)
  \/ (snd (parse_command c1) = [encode (Unrecognized c1)]
      /\ snd (parse_command c2) = [encode (Unrecognized c2)]).
Proof.
  intros E. unfold parse_command. rewrite E.
  repeat match goal with
  | |- context [String.eqb (str_lower c2) ?t] =>
      destruct (String.eqb (str_lower c2) t)
  end; cbn [fst snd]; auto.
Qed.

Lemma dummy_parser_ignores_case_witness :
  str_lower "Set The Thermostat To 24" = str_lower "SET THE THERMOSTAT TO 24"
  /\ (snd (parse_command "Set The Thermostat To 24")
      = snd (parse_command "SET THE THERMOSTAT TO 24")
      \/ (snd (parse_command "Set The Thermostat To 24")
          = [encode (Unrecognized "Set The Thermostat To 24")]
          /\ snd (parse_command "SET THE THERMOSTAT TO 24")
             = [encode (Unrecognized "SET THE THERMOSTAT TO 24")])).
Proof.
  split; [vm_compute; reflexivity|].
  apply (dummy_parser_ignores_case "Set The Thermostat To 24" "SET THE THERMOSTAT TO 24").
  vm_compute; reflexivity.
Defined.

(** X17: a command the dummy parser does not know comes back as one
    unknown request that carries the command as typed; [handle_command]
    answers it "Error: Could not understand the command." and changes
    nothing. *)
Theorem unknown_command_is_rejected (h : SmartHome) (command : string) :
  knows command = false ->
  snd (parse_command command)
  = [ {[ "action" := PStr "unknown"; "command" := PStr command ]} ]
  /\ handle_command h (snd (parse_command command))
     = (Return "Error: Could not understand the command.", h).
Proof.
  intros Hk. destruct (parse_command_requests command) as (reqs & E & _ & _ & Hu).
  rewrite E, (Hu Hk). split; [done|].
  rewrite handle_command_eq. cbn [map].
  by rewrite outcomes_single, final_home_single, step_unrecognized.
Qed.

Lemma unknown_command_is_rejected_witness :
  knows "Turn on the fan" = false
  /\ snd (parse_command "Turn on the fan")
     = [ {[ "action" := PStr "unknown"; "command" := PStr "Turn on the fan" ]} ]
  /\ handle_command SmartHome_init (snd (parse_command "Turn on the fan"))
     = (Return "Error: Could not understand the command.", SmartHome_init).
Proof.
  split; [vm_compute; reflexivity|].
  apply (unknown_command_is_rejected SmartHome_init "Turn on the fan").
  vm_compute; reflexivity.
Defined.

(** X18: "exit" and "quit", in any mix of upper and lower case, end the
    loop: what is typed after them is never read, and the loop ends by
    [break]. *)
Theorem quit_ends_the_loop
    (h : SmartHome) (pre post : list input_event) (q : string) :
  is_quit q = true ->
  interactive_loop h (pre ++ Line q :: post) = interactive_loop h (pre ++ [Line q])
  /\ snd (interactive_loop h (pre ++ [Line q])) = Break.
Proof.
  intros Hq. revert h. induction pre as [|[c|] pre IH]; intros h; simpl.
  - by rewrite Hq.
  - destruct (is_quit c); [done|].
    destruct (parse_command c) as [printed parsed].
    destruct (handle_command h parsed) as [r h'].
    destruct (IH h') as [-> E].
    destruct (interactive_loop h' (pre ++ [Line q])) as [[more h''] e]. done.
  - done.
Qed.

Lemma quit_ends_the_loop_witness :
  let pre := [Line "turn on the light"] in
  let post := [Line "set the fan speed to high"] in
  is_quit "QuIt" = true
  /\ interactive_loop SmartHome_init (pre ++ Line "QuIt" :: post)
     = interactive_loop SmartHome_init (pre ++ [Line "QuIt"])
  /\ snd (interactive_loop SmartHome_init (pre ++ [Line "QuIt"])) = Break.
Proof.
  cbv zeta. split; [vm_compute; reflexivity|].
  apply (quit_ends_the_loop SmartHome_init [Line "turn on the light"]
           [Line "set the fan speed to high"] "QuIt").
  vm_compute; reflexivity.
Defined.

Lemma requests_keep_inv (h : SmartHome) (reqs : list ActionRequest) :
  dummy_requests reqs ->
  test_mode_inv h -> test_mode_inv (final_home h (map encode reqs)).
Proof.
  intros Hr [Hf Ht].
  destruct Hr as [->|[->|[->|[->|[->|[->|[t ->]]]]]]]; cbn [map].
  1-4,7: rewrite final_home_single.
  - by rewrite step_turn_on.
  - rewrite step_set_fan. split; [by right | done].
  - rewrite step_set_thermostat. split; [done | right; by left].
  - by rewrite step_get_status.
  - by rewrite step_unrecognized.
  - rewrite final_home_two, step_turn_off, step_set_thermostat.
    split; [done | right; by right].
  - done.
Qed.

Lemma parse_command_keeps_inv (h : SmartHome) (command : string) :
  test_mode_inv h -> test_mode_inv (final_home h (snd (parse_command command))).
Proof.
  destruct (parse_command_requests command) as (reqs & -> & Hr & _).
  by apply requests_keep_inv.
Qed.

Lemma interactive_loop_keeps_inv (h : SmartHome) (events : list input_event) :
  test_mode_inv h -> test_mode_inv (snd (fst (interactive_loop h events))).
Proof.
  revert h. induction events as [|[c|] events IH]; intros h Hi; simpl; [done| |done].
  destruct (is_quit c); [done|].
  pose proof (parse_command_keeps_inv h c Hi) as Hp.
  destruct (parse_command c) as [printed parsed]. cbn [snd] in Hp.
  rewrite handle_command_eq.
  specialize (IH _ Hp).
  destruct (interactive_loop (final_home h parsed) events) as [[more h''] e]. done.
Qed.

(** X19: what testing mode can reach: whatever is typed, the dummy parser
    only ever leaves the fan off or at high, and the thermostat at its
    default or on at 24 or 20 degrees; low and medium are out of reach. *)
Theorem test_mode_reach (events : list input_event) :
  let h := snd (fst (main events)) in
  (Fan.speed (fan h) = OFF \/ Fan.speed (fan h) = HIGH)
  /\ (thermostat h = Thermostat.init
      \/ thermostat h = {| Thermostat.temperature := 24; Thermostat.state := true |}
      \/ thermostat h = {| Thermostat.temperature := 20; Thermostat.state := true |}).
Proof.
  cbv zeta. unfold main.
  assert (Hi : test_mode_inv SmartHome_init) by (split; [by left | by left]).
  pose proof (interactive_loop_keeps_inv SmartHome_init events Hi) as H.
  destruct (interactive_loop SmartHome_init events) as [[written h] e]. exact H.
Qed.

(** * Batches, ranges and frames, for the record *)

(** X20: the number of responses to a batch of action requests is the
    number of its requests with a handled device/action combination: each
    of those is answered once, the others not at all. *)
Theorem batch_outcome_count (h : SmartHome) (reqs : list ActionRequest) :
  length (dispatch h reqs) = length (filter (fun r => listed r = true) reqs).
Proof. apply dispatch_length. Qed.

(** X21: a batch can be cut anywhere: handling the first part and then the
    rest, on the registry the first part left, gives the responses of the
    whole batch in the same order and the same final registry. *)
Theorem batch_splits (h : SmartHome) (a b : list dict) :
  outcomes h (a ++ b) = outcomes h a ++ outcomes (snd (handle_command h a)) b
  /\ snd (handle_command h (a ++ b))
     = snd (handle_command (snd (handle_command h a)) b).
Proof.
  rewrite !handle_command_eq. cbn [snd].
  split; [apply outcomes_app | apply final_home_app].
Qed.

(** X22: the range test on the text of any integer: [str(t)] sets the
    thermostat to [t] and turns it on exactly when [18 <= t <= 30]; a
    negative [t] is an invalid value because of its sign, and every other
    [t] is out of range; in both cases nothing changes. *)
Theorem thermostat_range_on_integers (h : SmartHome) (t : Z) :
  let out := dispatch h [SetParam DevThermostat (py_str_int t)] in
  let h' := final_home h [encode (SetParam DevThermostat (py_str_int t))] in
  if ((18 <=? t) && (t <=? 30))%Z then
    out = ["Thermostat set to " +:+ pretty t +:+ degree +:+ "C"]
    /\ h' = with_thermostat h t
  else if (t <? 0)%Z then out = ["Error: Invalid temperature value."] /\ h' = h
  else out = ["Error: Temperature Out Of Range."] /\ h' = h.
Proof. apply thermostat_set_str_int. Qed.

(** X23: [get_status] looks at nothing but the action: with any device,
    parameter or other field in the request, the response is the status of
    the registry and the registry is unchanged. *)
Theorem get_status_ignores_other_fields (h : SmartHome) (c : dict) :
  py_eq (dict_get c "action") "get_status" = true ->
  final_home h [c] = h /\ outcomes h [c] = [status_text h].
Proof. apply raw_get_status. Qed.

Lemma get_status_ignores_other_fields_witness :
  let c : dict :=
    {[ "action" := PStr "get_status"; "device" := PStr "fan"; "param" := PStr "high" ]} in
  py_eq (dict_get c "action") "get_status" = true
  /\ final_home SmartHome_init [c] = SmartHome_init
  /\ outcomes SmartHome_init [c] = [status_text SmartHome_init].
Proof.
  cbv zeta. split; [vm_compute; reflexivity|].
  apply (get_status_ignores_other_fields SmartHome_init
           {[ "action" := PStr "get_status"; "device" := PStr "fan";
              "param" := PStr "high" ]}).
  vm_compute; reflexivity.
Defined.

(** X24: a request that names a device, whatever its action and whatever
    the type of its parameter, leaves the other two devices as they were. *)
Theorem named_device_frame (h : SmartHome) (c : dict) (d : DeviceKind) :
  py_eq (dict_get c "device") (device_name d) = true ->
  py_eq (dict_get c "action") "get_status" = false ->
  others_unchanged d h (final_home h [c]).
Proof. apply raw_request_frame. Qed.

Lemma named_device_frame_witness :
  let c : dict :=
    {[ "action" := PStr "set"; "device" := PStr "thermostat"; "param" := PStr "19" ]} in
  py_eq (dict_get c "device") (device_name DevThermostat) = true
  /\ py_eq (dict_get c "action") "get_status" = false
  /\ others_unchanged DevThermostat SmartHome_init (final_home SmartHome_init [c]).
Proof.
  cbv zeta.
  set (c := ({[ "action" := PStr "set"; "device" := PStr "thermostat";
                "param" := PStr "19" ]} : dict)).
  assert (H1 : py_eq (dict_get c "device") (device_name DevThermostat) = true)
    by (vm_compute; reflexivity).
  assert (H2 : py_eq (dict_get c "action") "get_status" = false)
    by (vm_compute; reflexivity).
  split; [exact H1|]. split; [exact H2|].
  exact (named_device_frame SmartHome_init c DevThermostat H1 H2).
Defined.
